(** * soccer-shpost-llm: the scraper, the minimal scraper and the merger

    A shallow embedding of [reddit_scraper.py], [subredditScraper.py] and
    [dataset_merger.py].

    Conventions.
    - A Python [str] is a [string]; a character is a code point below 256
      (Latin-1), on which [str.strip] and [str.lower] are written out as
      CPython defines them.
    - [None] is [None] of [option]; an attribute that may be absent from an
      object, or whose access may raise, is an [attr].
    - Exceptions are values of [exn]; a computation that may raise returns an
      [outcome].
    - The logger, the JSONL file handle, the CSV row buffer and the file
      system are explicit state. *)

From Stdlib Require Import String Ascii ZArith List Bool Lia.
From Stdlib Require Import Sorted Permutation DecimalString.
Import ListNotations.

Local Open Scope string_scope.
Local Open Scope list_scope.

(** ** Python values and exceptions *)

(** An exception: the class name and the message [str(e)] gives. *)
Record exn : Type := Exn { exn_class : string; exn_msg : string }.

Inductive outcome (A : Type) : Type :=
| Ok (a : A)
| Raise (e : exn).
Arguments Ok {A} a.
Arguments Raise {A} e.

(** What reading an attribute of a provider object does: the attribute is
    there, it is not (an [AttributeError]), or reading it raises something
    else (a lazy fetch that fails). *)
Inductive attr (A : Type) : Type :=
| Present (a : A)
| Missing
| Fails (e : exn).
Arguments Present {A} a.
Arguments Missing {A}.
Arguments Fails {A} e.

Definition AttributeError (cls name : string) : exn :=
  Exn "AttributeError"
    ("'" ++ cls ++ "' object has no attribute '" ++ name ++ "'").

(** [obj.name], for an object of class [cls] *)
Definition getattr_direct {A} (cls name : string) (x : attr A)
  : outcome A :=
  match x with
  | Present a => Ok a
  | Missing => Raise (AttributeError cls name)
  | Fails e => Raise e
  end.

(** [getattr(obj, name, default)]: only [AttributeError] is replaced by the
    default. *)
Definition getattr {A} (x : attr A) (default : A) : outcome A :=
  match x with
  | Present a => Ok a
  | Missing => Ok default
  | Fails e => Raise e
  end.

Definition attr_map {A B} (f : A -> B) (x : attr A) : attr B :=
  match x with
  | Present a => Present (f a)
  | Missing => Missing
  | Fails e => Fails e
  end.

(** [str(n)] for an [int]. *)
Definition str_of_int (n : Z) : string := NilZero.string_of_int (Z.to_int n).

(** ** Python strings *)

Module PyStr.

(** [str.isspace] on one character, for code points below 256. *)
Definition is_space (c : ascii) : bool :=
  let n := nat_of_ascii c in
  (((9 <=? n) && (n <=? 13)) || ((28 <=? n) && (n <=? 32))
   || (n =? 133) || (n =? 160))%nat.

(** [str.lower] on one character, for code points below 256: A-Z and the
    Latin-1 capitals 0xC0-0xDE (0xD7, the multiplication sign, apart). *)
Definition lower_char (c : ascii) : ascii :=
  let n := nat_of_ascii c in
  if (((65 <=? n) && (n <=? 90))
      || ((192 <=? n) && (n <=? 222) && negb (n =? 215)))%nat
  then ascii_of_nat (n + 32) else c.

Fixpoint lower (s : string) : string :=
  match s with
  | EmptyString => EmptyString
  | String c s' => String (lower_char c) (lower s')
  end.

Fixpoint lstrip (s : string) : string :=
  match s with
  | EmptyString => EmptyString
  | String c s' => if is_space c then lstrip s' else s
  end.

Definition is_empty (s : string) : bool :=
  match s with EmptyString => true | _ => false end.

Fixpoint rstrip (s : string) : string :=
  match s with
  | EmptyString => EmptyString
  | String c s' =>
      let r := rstrip s' in
      if is_space c && is_empty r then EmptyString else String c r
  end.

(** [s.strip()] *)
Definition strip (s : string) : string := rstrip (lstrip s).

Fixpoint drop (n : nat) (s : string) : string :=
  match n, s with
  | O, _ => s
  | S _, EmptyString => EmptyString
  | S k, String _ s' => drop k s'
  end.

(** [old in s] *)
Fixpoint contains (old s : string) : bool :=
  match s with
  | EmptyString => String.prefix old s
  | String _ s' => String.prefix old s || contains old s'
  end.

(** The scan of [str.replace] for a non-empty [old]: left to right, an
    occurrence found is replaced and the scan resumes after it; [skip]
    counts the characters of that occurrence still to pass over. *)
Fixpoint replace_scan (old new s : string) (skip : nat) : string :=
  match s with
  | EmptyString => EmptyString
  | String c s' =>
      match skip with
      | S k => replace_scan old new s' k
      | O =>
          if String.prefix old s
          then new ++ replace_scan old new s' (String.length old - 1)
          else String c (replace_scan old new s' 0)
      end
  end.

(** [new] before every character and at the end: what [str.replace] does
    for the empty [old]. *)
Fixpoint interleave (new s : string) : string :=
  match s with
  | EmptyString => new
  | String c s' => new ++ String c (interleave new s')
  end.

(** [s.replace(old, new)] *)
Definition replace (old new s : string) : string :=
  if is_empty old then interleave new s else replace_scan old new s 0.

End PyStr.

(** ** Effects: state and exceptions *)

(** A computation over the state [S] that returns or raises; the state
    survives a raise, as a Python object mutated before the exception does. *)
Definition M (S A : Type) : Type := S -> outcome A * S.

Definition ret {S A} (a : A) : M S A := fun s => (Ok a, s).

Definition raise {S A} (e : exn) : M S A := fun s => (Raise e, s).

Definition lift {S A} (o : outcome A) : M S A := fun s => (o, s).

Definition bind {S A B} (m : M S A) (k : A -> M S B) : M S B :=
  fun s =>
    match m s with
    | (Ok a, s') => k a s'
    | (Raise e, s') => (Raise e, s')
    end.

(** [try: m except Exception as e: h e] *)
Definition try_except {S A} (m : M S A) (h : exn -> M S A) : M S A :=
  fun s =>
    match m s with
    | (Ok a, s') => (Ok a, s')
    | (Raise e, s') => h e s'
    end.

Declare Scope py_scope.
Delimit Scope py_scope with py.
Notation "x <- m ;; k" := (bind m (fun x => k))
  (at level 61, m at next level, right associativity) : py_scope.
Notation "m ;;; k" := (bind m (fun _ => k))
  (at level 61, right associativity) : py_scope.

(** The [logging] module: level and message of each call, oldest first. *)
Inductive level : Type := INFO | WARNING | ERROR.
Definition log_entry : Type := (level * string)%type.

(** ** Builtins *)

Module Py.

(** Stable insertion of [x], which preceded every element of [l] in the
    input: it stays in front of the elements whose key equals its own. *)
Fixpoint insert {A} (key : A -> Z) (x : A) (l : list A) : list A :=
  match l with
  | [] => [x]
  | y :: ys => if (key x <=? key y)%Z then x :: y :: ys
               else y :: insert key x ys
  end.

Fixpoint sort_stable {A} (key : A -> Z) (l : list A) : list A :=
  match l with
  | [] => []
  | x :: xs => insert key x (sort_stable key xs)
  end.

(** [sorted(l, key=key, reverse=reverse)]: a stable ascending sort; with
    [reverse] the list is reversed before and after it, which is how CPython
    keeps equal keys in their original order in a descending sort. *)
Definition sorted {A} (l : list A) (key : A -> Z) (reverse : bool)
  : list A :=
  if reverse then rev (sort_stable key (rev l)) else sort_stable key l.

(** [l[:n]]: a negative [n] counts from the end. *)
Definition slice_to {A} (l : list A) (n : Z) : list A :=
  if (0 <=? n)%Z then firstn (Z.to_nat n) l
  else firstn (length l - Z.to_nat (- n)) l.

(** [str(x)] for a [str] or [None]. *)
Definition str_of_opt (x : option string) : string :=
  match x with Some s => s | None => "None" end.

Definition LF : string := String (ascii_of_nat 10) "".
Definition CR : string := String (ascii_of_nat 13) "".

End Py.

(** * reddit_scraper.py *)

Module reddit_scraper.

Import Py.
Local Open Scope py_scope.

(** [redact_text]: the argument is a [str] or [None]. *)
Definition redact_text (text : option string) : string :=
  match text with
  | None => ""
  | Some t =>
      if PyStr.is_empty t then ""
      else
        let t := PyStr.replace "[removed]" ""
                   (PyStr.replace "[deleted]" "" t) in
        PyStr.strip t
  end.

(** *** The provider's objects *)

(** A comment as PRAW hands it over. *)
Record Comment : Type := {
  c_id : attr string;
  c_body : attr (option string);
  c_score : attr (option Z);
  c_created_utc : attr (option Z);
  c_is_submitter : attr bool
}.

(** An element of a post's top-level comment forest. *)
Inductive node : Type :=
| MoreComments
| CommentNode (c : Comment).

(** A post handle. [replace_more] is what
    [post.comments.replace_more(limit=0)] does and [comments] what
    [for c in post.comments] iterates over afterwards; either can raise. *)
Record Submission : Type := {
  s_id : attr string;
  s_title : attr (option string);
  s_selftext : attr (option string);
  s_score : attr (option Z);
  s_created_utc : attr (option Z);
  s_num_comments : attr (option Z);
  s_permalink : attr (option string);
  s_replace_more : outcome unit;
  s_comments : outcome (list node)
}.

(** *** extract_top_comments *)

(** An element of the returned list. *)
Record comment_dict : Type := {
  cd_id : string;
  cd_body : string;
  cd_score : option Z;
  cd_created_utc : option Z;
  cd_is_submitter : bool
}.

(** [not body] *)
Definition falsy (body : option string) : bool :=
  match body with
  | None => true
  | Some b => PyStr.is_empty b
  end.

(** [body.strip().lower() in ("[deleted]", "[removed]")] *)
Definition is_sentinel (b : string) : bool :=
  let t := PyStr.lower (PyStr.strip b) in
  (t =? "[deleted]") || (t =? "[removed]").

(** The body of the [for] loop on one node: [None] for [continue], the
    appended element otherwise. *)
Definition visit (c : node) : outcome (option comment_dict) :=
  match c with
  | MoreComments => Ok None
  | CommentNode c =>
      match getattr (c_body c) None with
      | Raise e => Raise e
      | Ok body =>
          if falsy body then Ok None
          else if is_sentinel (str_of_opt body) then Ok None
          else
            match getattr_direct "Comment" "id" (c_id c) with
            | Raise e => Raise e
            | Ok id =>
            match getattr (c_score c) (Some 0%Z) with
            | Raise e => Raise e
            | Ok score =>
            match getattr (c_created_utc c) None with
            | Raise e => Raise e
            | Ok created_utc =>
            match getattr (c_is_submitter c) false with
            | Raise e => Raise e
            | Ok is_submitter =>
                Ok (Some {| cd_id := id;
                            cd_body := redact_text body;
                            cd_score := score;
                            cd_created_utc := created_utc;
                            cd_is_submitter := is_submitter |})
            end end end end
      end
  end.

(** The [for] loop, [comments] being the list built so far. *)
Fixpoint for_comments (nodes : list node) (comments : list comment_dict)
  : outcome (list comment_dict) :=
  match nodes with
  | [] => Ok comments
  | c :: rest =>
      match visit c with
      | Raise e => Raise e
      | Ok None => for_comments rest comments
      | Ok (Some d) => for_comments rest (comments ++ [d])
      end
  end.

(** [lambda x: x["score"] if x["score"] is not None else 0] *)
Definition score_key (x : comment_dict) : Z :=
  match cd_score x with Some n => n | None => 0%Z end.

Definition warning (msg : string) : M (list log_entry) unit :=
  fun lg => (Ok tt, lg ++ [(WARNING, msg)]).

Definition extract_top_comments (post : Submission) (top_n : Z)
  : M (list log_entry) (list comment_dict) :=
  try_except (lift (s_replace_more post))
    (fun e =>
       id <- lift (getattr_direct "Submission" "id" (s_id post)) ;;
       warning ("replace_more failed for " ++ id ++ ": " ++ exn_msg e)) ;;;
  nodes <- lift (s_comments post) ;;
  comments <- lift (for_comments nodes []) ;;
  let comments := sorted comments score_key true in
  ret (slice_to comments top_n).

(** *** scrape_subreddit *)

(** What the posts iterator yields, and the exception that ends the
    iteration when the provider fails part-way. *)
Record listing : Type := {
  items : list Submission;
  fault : option exn
}.

Record Subreddit : Type := {
  sub_top : string -> Z -> listing;
  sub_hot : Z -> listing;
  sub_new : Z -> listing;
  sub_rising : Z -> listing
}.

Record csv_row : Type := {
  row_id : string;
  row_title : string;
  row_selftext : string;
  row_top_comments : string;
  row_score : option Z;
  row_num_comments : option Z;
  row_created_utc : option Z;
  row_permalink : option string
}.

(** The environment of a run: the credentials read at import time, the
    session [praw.Reddit] builds from them, and the file system as far as
    the run uses it, that is whether [open(name, "w")] and
    [DataFrame(rows).to_csv(name)] succeed or raise. *)
Record Env : Type := {
  REDDIT_CLIENT_ID : option string;
  REDDIT_CLIENT_SECRET : option string;
  REDDIT_USER_AGENT : string;
  praw_Reddit : string -> string -> string -> (string -> Subreddit);
  open_w : string -> outcome unit;
  to_csv : string -> list csv_row -> outcome unit
}.

(** The dictionary [post_data]; a line of the JSONL file is
    [json.dumps(post_data) + "\n"]. *)
Record post_data : Type := {
  pd_id : string;
  pd_title : string;
  pd_selftext : string;
  pd_score : option Z;
  pd_created_utc : option Z;
  pd_num_comments : option Z;
  pd_permalink : option string;
  pd_top_comments : list comment_dict
}.

(** The handle [jsonl_f] and the records written through it so far. *)
Record file_handle : Type := {
  f_name : string;
  f_closed : bool;
  f_written : list post_data
}.

(** The variables of the loop of [scrape_subreddit], and the logger. *)
Record run_state : Type := {
  jsonl_f : file_handle;
  rows : list csv_row;
  count : nat;
  logger : list log_entry
}.

(** What a run leaves behind: the JSONL file if it was opened, the CSV file
    if it was saved, and the log. The file is opened, outside any [try],
    once the listing is chosen; the table is saved after the loop. *)
Record run_result : Type := {
  r_outcome : outcome unit;
  r_jsonl : option file_handle;
  r_csv : option (string * list csv_row);
  r_log : list log_entry
}.

Definition init_reddit_creds (env : Env) : outcome (string -> Subreddit) :=
  match REDDIT_CLIENT_ID env, REDDIT_CLIENT_SECRET env with
  | Some id, Some secret =>
      if PyStr.is_empty id || PyStr.is_empty secret
      then Raise (Exn "RuntimeError"
                    "Missing Reddit credentials in environment.")
      else Ok (praw_Reddit env id secret (REDDIT_USER_AGENT env))
  | _, _ => Raise (Exn "RuntimeError"
                     "Missing Reddit credentials in environment.")
  end.

(** [jsonl_f.write(json.dumps(post_data, ensure_ascii=False) + "\n")] *)
Definition jsonl_write (d : post_data) : M run_state unit :=
  fun st =>
    let f := jsonl_f st in
    if f_closed f
    then (Raise (Exn "ValueError" "I/O operation on closed file."), st)
    else (Ok tt,
          {| jsonl_f := {| f_name := f_name f; f_closed := false;
                           f_written := f_written f ++ [d] |};
             rows := rows st; count := count st; logger := logger st |}).

(** [jsonl_f.close()] *)
Definition jsonl_close : M run_state unit :=
  fun st =>
    let f := jsonl_f st in
    (Ok tt,
     {| jsonl_f := {| f_name := f_name f; f_closed := true;
                      f_written := f_written f |};
        rows := rows st; count := count st; logger := logger st |}).

Definition rows_append (r : csv_row) : M run_state unit :=
  fun st =>
    (Ok tt, {| jsonl_f := jsonl_f st; rows := rows st ++ [r];
               count := count st; logger := logger st |}).

Definition count_incr : M run_state unit :=
  fun st =>
    (Ok tt, {| jsonl_f := jsonl_f st; rows := rows st;
               count := S (count st); logger := logger st |}).

Definition log (lv : level) (msg : string) : M run_state unit :=
  fun st =>
    (Ok tt, {| jsonl_f := jsonl_f st; rows := rows st;
               count := count st; logger := logger st ++ [(lv, msg)] |}).

(** A computation on the logger alone, run inside the loop. *)
Definition with_logger {A} (m : M (list log_entry) A) : M run_state A :=
  fun st =>
    let '(r, lg) := m (logger st) in
    (r, {| jsonl_f := jsonl_f st; rows := rows st;
           count := count st; logger := lg |}).

Definition flatten_body (c : comment_dict) : string :=
  PyStr.replace CR "" (PyStr.replace LF "" (cd_body c)).

(** The body of the [try] for one post. *)
Definition try_post (post : Submission) (top_comments : Z)
  : M run_state unit :=
  id <- lift (getattr_direct "Submission" "id" (s_id post)) ;;
  title <- lift (getattr_direct "Submission" "title" (s_title post)) ;;
  selftext <- lift (getattr (s_selftext post) (Some "")) ;;
  score <- lift (getattr (s_score post) None) ;;
  created_utc <- lift (getattr (s_created_utc post) None) ;;
  num_comments <- lift (getattr (s_num_comments post) None) ;;
  permalink <- lift (getattr (s_permalink post) None) ;;
  top_comments_list <- with_logger (extract_top_comments post top_comments) ;;
  let post_data :=
    {| pd_id := id;
       pd_title := redact_text title;
       pd_selftext := redact_text selftext;
       pd_score := score;
       pd_created_utc := created_utc;
       pd_num_comments := num_comments;
       pd_permalink := permalink;
       pd_top_comments := top_comments_list |} in
  if negb (pd_title post_data =? "") then
    jsonl_write post_data ;;;
    let comments_flat :=
      String.concat " ||| " (map flatten_body top_comments_list) in
    rows_append
      {| row_id := pd_id post_data;
         row_title := pd_title post_data;
         row_selftext := pd_selftext post_data;
         row_top_comments := comments_flat;
         row_score := pd_score post_data;
         row_num_comments := pd_num_comments post_data;
         row_created_utc := pd_created_utc post_data;
         row_permalink := pd_permalink post_data |} ;;;
    count_incr
  else ret tt.

(** The [except Exception as e] clause. *)
Definition except_post (post : Submission) (e : exn) : M run_state unit :=
  jsonl_close ;;;
  id <- lift (getattr (attr_map Some (s_id post)) None) ;;
  log ERROR ("Error processing submission id=" ++ str_of_opt id ++ ": "
             ++ exn_msg e).

(** One iteration of the loop. *)
Definition process_post (post : Submission) (top_comments : Z)
  : M run_state unit :=
  try_except (try_post post top_comments) (except_post post).

Fixpoint for_posts (posts : list Submission) (top_comments : Z)
  : M run_state unit :=
  match posts with
  | [] => ret tt
  | post :: rest =>
      process_post post top_comments ;;; for_posts rest top_comments
  end.

(** The whole [for post in tqdm(iteratable_results, ...)] statement: the
    iterator may raise once its items are consumed, outside any [try]. *)
Definition for_listing (l : listing) (top_comments : Z) : M run_state unit :=
  for_posts (items l) top_comments ;;;
  match fault l with
  | Some e => raise e
  | None => ret tt
  end.

(** The listing chosen from the lowercased [sort], and the warning logged
    for an unknown one. *)
Definition select (sub : Subreddit) (sort time_filter : string) (limit : Z)
  : listing * list log_entry :=
  if sort =? "top" then (sub_top sub time_filter limit, [])
  else if sort =? "hot" then (sub_hot sub limit, [])
  else if sort =? "new" then (sub_new sub limit, [])
  else if sort =? "rising" then (sub_rising sub limit, [])
  else (sub_top sub time_filter limit,
        [(WARNING,
          ("Unknown sort '" ++ sort ++ "', defaulting to top")%string)]).

Definition out_name (output_prefix subreddit_name sort time_filter : string)
  (limit : Z) (ext : string) : string :=
  output_prefix ++ "_" ++ subreddit_name ++ "_" ++ sort ++ "_"
  ++ time_filter ++ "_" ++ str_of_int limit ++ ext.

Definition scrape_subreddit (env : Env)
  (subreddit_name sort time_filter : string) (limit top_comments : Z)
  (output_prefix : string) (lg : list log_entry) : run_result :=
  match init_reddit_creds env with
  | Raise e =>
      {| r_outcome := Raise e; r_jsonl := None; r_csv := None; r_log := lg |}
  | Ok reddit_scraper =>
      let lg := lg ++ [(INFO,
        ("Scraping r/" ++ subreddit_name ++ " | sort=" ++ sort
         ++ " time_filter=" ++ time_filter ++ " limit=" ++ str_of_int limit
         ++ " top_comments=" ++ str_of_int top_comments)%string)] in
      let sub := reddit_scraper subreddit_name in
      let sort := PyStr.lower sort in
      let '(iteratable_results, w) := select sub sort time_filter limit in
      let lg := lg ++ w in
      let out_jsonl :=
        out_name output_prefix subreddit_name sort time_filter limit
          ".jsonl" in
      let out_csv :=
        out_name output_prefix subreddit_name sort time_filter limit
          ".csv" in
      match open_w env out_jsonl with
      | Raise e =>
          {| r_outcome := Raise e; r_jsonl := None; r_csv := None;
             r_log := lg |}
      | Ok _ =>
      let st0 :=
        {| jsonl_f := {| f_name := out_jsonl; f_closed := false;
                         f_written := [] |};
           rows := []; count := 0; logger := lg |} in
      match for_listing iteratable_results top_comments st0 with
      | (Raise e, st) =>
          {| r_outcome := Raise e; r_jsonl := Some (jsonl_f st);
             r_csv := None; r_log := logger st |}
      | (Ok _, st) =>
          let '(_, st) := jsonl_close st in
          match to_csv env out_csv (rows st) with
          | Raise e =>
              {| r_outcome := Raise e; r_jsonl := Some (jsonl_f st);
                 r_csv := None; r_log := logger st |}
          | Ok _ =>
              {| r_outcome := Ok tt; r_jsonl := Some (jsonl_f st);
                 r_csv := Some (out_csv, rows st);
                 r_log := logger st ++ [(INFO,
                   ("Saved " ++ str_of_int (Z.of_nat (count st))
                    ++ " submissions to " ++ out_jsonl ++ " and "
                    ++ out_csv)%string)] |}
          end
      end
      end
  end.

(** *** main *)

(** The namespace [parse_args] returns. *)
Record Args : Type := {
  a_subreddit : string;
  a_limit : Z;
  a_sort : string;
  a_time_filter : string;
  a_top_comments : Z;
  a_output_prefix : string
}.

(** [main], from the parsed arguments on: an exception of the run is
    logged twice, by [logger.exception] and by [logger.info], and goes no
    further. *)
Definition main (env : Env) (args : Args) (lg : list log_entry)
  : run_result :=
  let r :=
    scrape_subreddit env (a_subreddit args) (a_sort args)
      (a_time_filter args) (a_limit args) (a_top_comments args)
      (a_output_prefix args) lg in
  match r_outcome r with
  | Ok _ => r
  | Raise e =>
      {| r_outcome := Ok tt; r_jsonl := r_jsonl r; r_csv := r_csv r;
         r_log := r_log r ++ [(ERROR, ("Fatal error: " ++ exn_msg e)%string);
                              (INFO, exn_msg e)] |}
  end.

End reddit_scraper.

(** * subredditScraper.py *)

Module subredditScraper.

Import Py reddit_scraper.
Local Open Scope py_scope.

(** An element of [data]. *)
Record entry : Type := {
  title : option string;
  selftext : option string;
  comments : list (option string)
}.

(** [c.body]; a [MoreComments] object has no [body]. *)
Definition body_of (c : node) : outcome (option string) :=
  match c with
  | MoreComments => Raise (AttributeError "MoreComments" "body")
  | CommentNode c => getattr_direct "Comment" "body" (c_body c)
  end.

(** [[c.body for c in l]] *)
Fixpoint bodies (l : list node) : outcome (list (option string)) :=
  match l with
  | [] => Ok []
  | c :: rest =>
      match body_of c with
      | Raise e => Raise e
      | Ok b =>
          match bodies rest with
          | Raise e => Raise e
          | Ok bs => Ok (b :: bs)
          end
      end
  end.

(** The body of the loop for one submission, on the list [data]. *)
Definition process (submission : Submission) : M (list entry) unit :=
  lift (s_replace_more submission) ;;;
  nodes <- lift (s_comments submission) ;;
  top_comments <- lift (bodies (slice_to nodes 5)) ;;
  t <- lift (getattr_direct "Submission" "title" (s_title submission)) ;;
  st <- lift (getattr_direct "Submission" "selftext"
                (s_selftext submission)) ;;
  fun data =>
    (Ok tt,
     data ++ [{| title := t; selftext := st; comments := top_comments |}]).

Fixpoint for_submissions (l : list Submission) : M (list entry) unit :=
  match l with
  | [] => ret tt
  | submission :: rest => process submission ;;; for_submissions rest
  end.

(** The script: the outcome, and the table saved to
    [soccercirclejerk_dataset.csv] when the loop ends normally. *)
Definition main (praw_Reddit : string -> string -> string
                               -> (string -> Subreddit))
  : outcome unit * option (list entry) :=
  let reddit :=
    praw_Reddit "YOUR_CLIENT_ID" "YOUR_CLIENT_SECRET"
      "soccercirclejerk_llm" in
  let subreddit := reddit "soccercirclejerk" in
  let l := sub_top subreddit "all" 500%Z in
  match for_submissions (items l) [] with
  | (Raise e, _) => (Raise e, None)
  | (Ok _, data) =>
      match fault l with
      | Some e => (Raise e, None)
      | None => (Ok tt, Some data)
      end
  end.

End subredditScraper.

(** * dataset_merger.py *)

Module dataset_merger.

Import Py.

Definition files : list string :=
  [ "dataset_soccer_top_all_250.jsonl";
    "dataset_soccer_top_year_250.jsonl";
    "dataset_soccercirclejerk_top_all_250.jsonl";
    "dataset_soccercirclejerk_top_month_250.jsonl";
    "dataset_soccercirclejerk_top_year_250.jsonl" ].

Definition output_file : string := "merged_datasets.jsonl".

(** The files on disk: the text of each one that exists, as [read] returns
    it. *)
Definition filesystem : Type := string -> option string.

Definition store (name content : string) (fs : filesystem) : filesystem :=
  fun n => if n =? name then Some content else fs n.

(** The loop over the input files; [outfile] is what has been written to
    the destination so far. *)
Fixpoint for_files (names : list string) (fs : filesystem) (outfile : string)
  : outcome unit * string :=
  match names with
  | [] => (Ok tt, outfile)
  | fname :: rest =>
      match fs fname with
      | None =>
          (Raise (Exn "FileNotFoundError"
                    ("[Errno 2] No such file or directory: '" ++ fname
                     ++ "'")),
           outfile)
      | Some text => for_files rest fs ((outfile ++ text) ++ LF)
      end
  end.

(** The script for a list of inputs and a destination: the outcome, the
    files afterwards and what was printed. Opening the destination for
    writing empties it; leaving the [with] block, normally or not, leaves
    in it what was written. *)
Definition merge (files : list string) (output_file : string)
  (fs : filesystem) : outcome unit * filesystem * list string :=
  let fs0 := store output_file "" fs in
  match for_files files fs0 "" with
  | (Raise e, written) => (Raise e, store output_file written fs0, [])
  | (Ok _, written) =>
      (Ok tt, store output_file written fs0,
       [("Merged " ++ str_of_int (Z.of_nat (length files))
         ++ " files into " ++ output_file)%string])
  end.

Definition main : filesystem -> outcome unit * filesystem * list string :=
  merge files output_file.

End dataset_merger.

(** * Vocabulary of the properties, and sample inputs *)

Module Spec.

Import Py reddit_scraper.

Definition ascending {A} (key : A -> Z) (a b : A) : Prop :=
  (key a <= key b)%Z.

Definition descending {A} (key : A -> Z) (a b : A) : Prop :=
  (key a >= key b)%Z.

(** What the loop of [extract_top_comments] appends for one node. *)
Definition kept (c : node) : list comment_dict :=
  match visit c with
  | Ok (Some d) => [d]
  | _ => []
  end.

(** The retained comments of a comment sequence, in the provider's order. *)
Definition retained (nodes : list node) : list comment_dict :=
  flat_map kept nodes.

(** A comment the extractor is to leave out: its body is missing, [None],
    empty, or a sentinel once trimmed and lowercased. *)
Definition excluded (c : Comment) : bool :=
  match c_body c with
  | Present (Some b) => PyStr.is_empty b || is_sentinel b
  | Present None => true
  | Missing => true
  | Fails _ => false
  end.

Definition readable {A} (x : attr A) : bool :=
  match x with
  | Fails _ => false
  | _ => true
  end.

Definition has_attr {A} (x : attr A) : bool :=
  match x with
  | Present _ => true
  | _ => false
  end.

(** A node whose attributes can all be read: none raises, and a comment
    has an [id]. *)
Definition sound (c : node) : bool :=
  match c with
  | MoreComments => true
  | CommentNode c =>
      has_attr (c_id c) && readable (c_body c) && readable (c_score c)
      && readable (c_created_utc c) && readable (c_is_submitter c)
  end.

(** The elements whose [score] entry is [sc]. *)
Definition same_score (sc : option Z) (x : comment_dict) : bool :=
  match sc, cd_score x with
  | Some a, Some b => (a =? b)%Z
  | None, None => true
  | _, _ => false
  end.

(** The post with another comment sequence. *)
Definition with_comments (post : Submission) (nodes : list node)
  : Submission :=
  {| s_id := s_id post; s_title := s_title post;
     s_selftext := s_selftext post; s_score := s_score post;
     s_created_utc := s_created_utc post;
     s_num_comments := s_num_comments post;
     s_permalink := s_permalink post;
     s_replace_more := s_replace_more post;
     s_comments := Ok nodes |}.

(** Sample inputs. *)

Definition comment (id body : string) (score : Z) : node :=
  CommentNode {| c_id := Present id; c_body := Present (Some body);
                 c_score := Present (Some score);
                 c_created_utc := Present None;
                 c_is_submitter := Present false |}.

Definition dict (id body : string) (score : Z) : comment_dict :=
  {| cd_id := id; cd_body := body; cd_score := Some score;
     cd_created_utc := None; cd_is_submitter := false |}.

Definition post (id title : string) (expansion : outcome unit)
  (nodes : outcome (list node)) : Submission :=
  {| s_id := Present id; s_title := Present (Some title);
     s_selftext := Present (Some ""); s_score := Present (Some 1%Z);
     s_created_utc := Present None; s_num_comments := Present None;
     s_permalink := Present None;
     s_replace_more := expansion; s_comments := nodes |}.

Definition provider_error : exn := Exn "ServerError" "received 503".

(** The scenario of the specification. *)
Definition scenario_comments : list node :=
  [comment "c1" "ok" 5; comment "c2" "[removed]" 5; comment "c3" "best" 9].

Definition scenario_post : Submission :=
  post "p1" "a title" (Ok tt) (Ok scenario_comments).

(** A post whose comment forest cannot be fetched: the expansion raises and
    so does the iteration. *)
Definition unreachable_post : Submission :=
  post "p2" "another title" (Raise provider_error) (Raise provider_error).

(** A post whose expansion alone fails. *)
Definition unexpanded_post : Submission :=
  post "p3" "a title" (Raise provider_error)
    (Ok [comment "c1" "ok" 5; MoreComments]).

(** A comment made of the two placeholders only. *)
Definition placeholders_post : Submission :=
  post "p4" "a title" (Ok tt) (Ok [comment "c1" "[deleted][removed]" 3]).

(** The records written through the handle, and whether it is closed. *)
Definition written (st : run_state) : list post_data :=
  f_written (jsonl_f st).

Definition closed (st : run_state) : bool := f_closed (jsonl_f st).

(** The loop variables as [scrape_subreddit] sets them up. *)
Definition fresh_state : run_state :=
  {| jsonl_f := {| f_name := "out.jsonl"; f_closed := false;
                   f_written := [] |};
     rows := []; count := 0; logger := [] |}.

(** A post whose title is a placeholder only. *)
Definition untitled_post : Submission :=
  post "p5" " [deleted] " (Ok tt) (Ok []).

Definition later_post : Submission :=
  post "p6" "a later title" (Ok tt) (Ok []).

(** A provider with one community, listed the same way under every sort. *)
Definition sample_listing : listing :=
  {| items := [scenario_post; untitled_post; unreachable_post; later_post];
     fault := None |}.

Definition sample_env : Env :=
  {| REDDIT_CLIENT_ID := Some "id";
     REDDIT_CLIENT_SECRET := Some "secret";
     REDDIT_USER_AGENT := "soccercirclejerk_llm_scraper/0.1";
     praw_Reddit := fun _ _ _ _ =>
       {| sub_top := fun _ _ => sample_listing;
          sub_hot := fun _ => sample_listing;
          sub_new := fun _ => sample_listing;
          sub_rising := fun _ => sample_listing |};
     open_w := fun _ => Ok tt;
     to_csv := fun _ _ => Ok tt |}.

(** The JSONL file a run on the sample provider leaves behind. *)
Definition sample_jsonl : file_handle :=
  {| f_name := "dataset_soccercirclejerk_top_all_250.jsonl";
     f_closed := true;
     f_written :=
       [{| pd_id := "p1"; pd_title := "a title"; pd_selftext := "";
           pd_score := Some 1%Z; pd_created_utc := None;
           pd_num_comments := None; pd_permalink := None;
           pd_top_comments :=
             [dict "c3" "best" 9; dict "c1" "ok" 5] |}] |}.

(** Two input files on disk, and a stale destination. *)
Definition sample_files : dataset_merger.filesystem :=
  fun n =>
    if n =? "a.jsonl" then Some ("{a: 1}" ++ LF)%string
    else if n =? "b.jsonl" then Some ("{b: 2}" ++ LF)%string
    else if n =? "merged.jsonl" then Some "stale"
    else None.

(** The body read from a node, as it is. *)
Definition raw_body (c : node) (b : option string) : Prop :=
  exists c', c = CommentNode c' /\ c_body c' = Present b.


(** The entry the minimal script records for a submission: its title and
    text as they are, and the bodies of its first five comments. *)
Definition recorded (p : Submission) (e : subredditScraper.entry) : Prop :=
  s_title p = Present (subredditScraper.title e) /\
  s_selftext p = Present (subredditScraper.selftext e) /\
  exists nodes, s_comments p = Ok nodes /\
                Forall2 raw_body (firstn 5 nodes)
                  (subredditScraper.comments e).

(** The listing the minimal script iterates. *)
Definition minimal_listing
  (praw_Reddit : string -> string -> string -> (string -> Subreddit))
  : listing :=
  sub_top (praw_Reddit "YOUR_CLIENT_ID" "YOUR_CLIENT_SECRET"
             "soccercirclejerk_llm" "soccercirclejerk") "all" 500%Z.


(** Every record and every row written has a title. *)
Definition titled (st : run_state) : Prop :=
  Forall (fun d => pd_title d <> "") (written st) /\
  Forall (fun r => row_title r <> "") (rows st).

(** The CSV row of a record: the same fields, the comments flattened. *)
Definition row_of (d : post_data) : csv_row :=
  {| row_id := pd_id d;
     row_title := pd_title d;
     row_selftext := pd_selftext d;
     row_top_comments :=
       String.concat " ||| " (map flatten_body (pd_top_comments d));
     row_score := pd_score d;
     row_num_comments := pd_num_comments d;
     row_created_utc := pd_created_utc d;
     row_permalink := pd_permalink d |}.

(** The value of an attribute, or a default where it is absent. *)
Definition value {A} (x : attr A) (default : A) : A :=
  match x with
  | Present a => a
  | _ => default
  end.

(** The ranking of a post's retained comments cut at [top_n]. *)
Definition top_of (p : Submission) (top_n : Z) : list comment_dict :=
  match s_comments p with
  | Ok nodes => slice_to (sorted (retained nodes) score_key true) top_n
  | Raise _ => []
  end.

(** The record of a post all of whose reads succeed. *)
Definition record_of (top_n : Z) (p : Submission) : post_data :=
  {| pd_id := value (s_id p) "";
     pd_title := redact_text (value (s_title p) None);
     pd_selftext := redact_text (value (s_selftext p) (Some ""));
     pd_score := value (s_score p) None;
     pd_created_utc := value (s_created_utc p) None;
     pd_num_comments := value (s_num_comments p) None;
     pd_permalink := value (s_permalink p) None;
     pd_top_comments := top_of p top_n |}.

(** A post every read of which succeeds: it has an id and a title, no
    other attribute raises, and its comments can be iterated and read. (A
    failed expansion is allowed.) *)
Definition healthy (p : Submission) : bool :=
  has_attr (s_id p) && has_attr (s_title p) && readable (s_selftext p)
  && readable (s_score p) && readable (s_created_utc p)
  && readable (s_num_comments p) && readable (s_permalink p)
  && match s_comments p with
     | Ok nodes => forallb sound nodes
     | Raise _ => false
     end.

Definition has_title (d : post_data) : bool := negb (pd_title d =? "").

(** The row buffer mirrors the file, and the counter counts its records. *)
Definition in_sync (st : run_state) : Prop :=
  rows st = map row_of (written st) /\ count st = length (written st).

(** What a run has written so far, apart from the log and the file's
    name. *)
Definition sinks (st : run_state)
  : bool * list post_data * list csv_row * nat :=
  (closed st, written st, rows st, count st).

(** The name of the file behind the handle. *)
Definition path (st : run_state) : string := f_name (jsonl_f st).

(** All characters are whitespace. *)
Fixpoint blank (s : string) : bool :=
  match s with
  | EmptyString => true
  | String c s' => PyStr.is_space c && blank s'
  end.

(** The names the command line accepts for the sort. *)
Definition sort_choices : list string := ["top"; "hot"; "new"; "rising"].

(** The command line's defaults. *)
Definition default_args : Args :=
  {| a_subreddit := "soccercirclejerk"; a_limit := 250; a_sort := "top";
     a_time_filter := "all"; a_top_comments := 5;
     a_output_prefix := "dataset" |}.

(** An environment with its secret unset. *)
Definition env_without_secret : Env :=
  {| REDDIT_CLIENT_ID := Some "id"; REDDIT_CLIENT_SECRET := None;
     REDDIT_USER_AGENT := "soccercirclejerk_llm_scraper/0.1";
     praw_Reddit := praw_Reddit sample_env;
     open_w := fun _ => Ok tt;
     to_csv := fun _ _ => Ok tt |}.

(** An environment in which the output file cannot be opened. *)
Definition env_without_directory : Env :=
  {| REDDIT_CLIENT_ID := Some "id";
     REDDIT_CLIENT_SECRET := Some "secret";
     REDDIT_USER_AGENT := "soccercirclejerk_llm_scraper/0.1";
     praw_Reddit := praw_Reddit sample_env;
     open_w := fun name =>
       Raise (Exn "FileNotFoundError"
                ("[Errno 2] No such file or directory: '" ++ name ++ "'"));
     to_csv := fun _ _ => Ok tt |}.

(** A provider whose listing fails once its items are consumed. *)
Definition failing_listing : listing :=
  {| items := [scenario_post; unreachable_post];
     fault := Some provider_error |}.

Definition failing_env : Env :=
  {| REDDIT_CLIENT_ID := Some "id";
     REDDIT_CLIENT_SECRET := Some "secret";
     REDDIT_USER_AGENT := "soccercirclejerk_llm_scraper/0.1";
     praw_Reddit := fun _ _ _ _ =>
       {| sub_top := fun _ _ => failing_listing;
          sub_hot := fun _ => failing_listing;
          sub_new := fun _ => failing_listing;
          sub_rising := fun _ => failing_listing |};
     open_w := fun _ => Ok tt;
     to_csv := fun _ _ => Ok tt |}.

(** A provider all of whose posts can be read. *)
Definition healthy_listing : listing :=
  {| items := [scenario_post; untitled_post; unexpanded_post];
     fault := None |}.

Definition healthy_env : Env :=
  {| REDDIT_CLIENT_ID := Some "id";
     REDDIT_CLIENT_SECRET := Some "secret";
     REDDIT_USER_AGENT := "soccercirclejerk_llm_scraper/0.1";
     praw_Reddit := fun _ _ _ _ =>
       {| sub_top := fun _ _ => healthy_listing;
          sub_hot := fun _ => healthy_listing;
          sub_new := fun _ => healthy_listing;
          sub_rising := fun _ => healthy_listing |};
     open_w := fun _ => Ok tt;
     to_csv := fun _ _ => Ok tt |}.

(** A provider that lists [l] under every sort. *)
Definition env_of (l : listing) : Env :=
  {| REDDIT_CLIENT_ID := Some "id";
     REDDIT_CLIENT_SECRET := Some "secret";
     REDDIT_USER_AGENT := "soccercirclejerk_llm_scraper/0.1";
     praw_Reddit := fun _ _ _ _ =>
       {| sub_top := fun _ _ => l;
          sub_hot := fun _ => l;
          sub_new := fun _ => l;
          sub_rising := fun _ => l |};
     open_w := fun _ => Ok tt;
     to_csv := fun _ _ => Ok tt |}.

(** A post with a comment of several lines. *)
Definition multiline_post : Submission :=
  post "p9" "a title" (Ok tt)
    (Ok [comment "c1" ("first" ++ LF ++ "second" ++ CR ++ LF ++ "third") 4;
         comment "c2" "one line" 2]).

Definition multiline_listing : listing :=
  {| items := [multiline_post]; fault := None |}.

Definition missing (x : option string) : bool :=
  match x with
  | None => true
  | Some v => PyStr.is_empty v
  end.

End Spec.

(** Case analysis on the next attribute read of a goal, closing the
    branches in which the read raises. *)
Ltac read_attr :=
  match goal with
  | |- context [match ?x with
                | Present _ => _ | Missing => _ | Fails _ => _ end] =>
      destruct x; cbn; try (left; repeat split; reflexivity)
  end.

(** * Properties *)

Import Py reddit_scraper Spec.

(** ** Strings *)

Section StringFacts.

Import PyStr.

Lemma rstrip_idem (s : string) : rstrip (rstrip s) = rstrip s.
Proof.
  induction s as [|c s IH]; simpl; [reflexivity|].
  destruct (is_space c && is_empty (rstrip s)) eqn:E; simpl.
  - reflexivity.
  - rewrite IH, E. reflexivity.
Qed.

Lemma lstrip_head (s : string) :
  lstrip s = "" \/
  exists c r, lstrip s = String c r /\ is_space c = false.
Proof.
  induction s as [|c s IH]; simpl; [now left|].
  destruct (is_space c) eqn:E; [exact IH|].
  right. now exists c, s.
Qed.

Lemma lstrip_strip (s : string) : lstrip (strip s) = strip s.
Proof.
  unfold strip.
  destruct (lstrip_head s) as [E | (c & r & E & Hc)]; rewrite E; simpl.
  - reflexivity.
  - rewrite Hc. simpl. rewrite Hc. reflexivity.
Qed.

Lemma strip_idem (s : string) : strip (strip s) = strip s.
Proof.
  unfold strip at 1. rewrite lstrip_strip.
  unfold strip. apply rstrip_idem.
Qed.

Lemma lstrip_length (s : string) : String.length (lstrip s) <= String.length s.
Proof.
  induction s as [|c s IH]; simpl; [lia|].
  destruct (is_space c); simpl; lia.
Qed.

Lemma rstrip_length (s : string) : String.length (rstrip s) <= String.length s.
Proof.
  induction s as [|c s IH]; simpl; [lia|].
  destruct (is_space c && is_empty (rstrip s)); simpl; lia.
Qed.

Lemma strip_length (s : string) : String.length (strip s) <= String.length s.
Proof.
  unfold strip.
  pose proof (rstrip_length (lstrip s)). pose proof (lstrip_length s). lia.
Qed.

(** Where [old] does not occur, the scan copies its input. *)
Lemma replace_scan_absent (old new s : string) :
  contains old s = false -> replace_scan old new s 0 = s.
Proof.
  induction s as [|c s IH]; cbn [replace_scan contains]; [reflexivity|].
  intros H. apply orb_false_iff in H as [Hp Hc].
  rewrite Hp, (IH Hc). reflexivity.
Qed.

Lemma replace_absent (old new s : string) :
  contains old s = false -> replace old new s = s.
Proof.
  intros H. unfold replace.
  destruct old as [|a old]; simpl.
  - destruct s; simpl in H; discriminate.
  - now apply replace_scan_absent.
Qed.

(** Removing occurrences never lengthens the text, whatever is still to be
    passed over. *)
Lemma remove_scan_length (old s : string) (k : nat) :
  String.length (replace_scan old "" s k) <= String.length s.
Proof.
  revert k. induction s as [|c s IH]; intros k; [simpl; lia|].
  cbn [replace_scan].
  destruct k as [|k].
  - destruct (String.prefix old (String c s)).
    + cbn [append String.length]. specialize (IH (String.length old - 1)). lia.
    + cbn [String.length]. specialize (IH 0). lia.
  - cbn [String.length]. specialize (IH k). lia.
Qed.

(** It shortens a text where [old] occurs. *)
Lemma remove_scan_shorter (old s : string) :
  is_empty old = false ->
  contains old s = true ->
  String.length (replace_scan old "" s 0) < String.length s.
Proof.
  intros Hne.
  induction s as [|c s IH]; cbn [replace_scan contains]; intros H.
  - destruct old; [discriminate | simpl in H; discriminate].
  - destruct (String.prefix old (String c s)) eqn:Hp.
    + cbn [append String.length].
      pose proof (remove_scan_length old s (String.length old - 1)). lia.
    + simpl in H. cbn [String.length]. specialize (IH H). lia.
Qed.

Lemma remove_length (old s : string) :
  String.length (replace old "" s) <= String.length s.
Proof.
  unfold replace. destruct old as [|a old]; cbn [is_empty].
  - induction s as [|c s IH]; simpl; lia.
  - apply remove_scan_length.
Qed.

Lemma remove_shorter (old s : string) :
  is_empty old = false -> contains old s = true ->
  String.length (replace old "" s) < String.length s.
Proof.
  intros Hne H. unfold replace. rewrite Hne.
  now apply remove_scan_shorter.
Qed.

(** The counter of the scan stands for the characters dropped: after an
    occurrence the scan goes on behind it. *)
Lemma replace_scan_skip (old new s : string) (k : nat) :
  replace_scan old new s k = replace_scan old new (drop k s) 0.
Proof.
  revert k. induction s as [|c s IH]; intros [|k]; try reflexivity.
  cbn [replace_scan drop]. apply IH.
Qed.

Lemma replace_scan_found (old new s : string) :
  is_empty old = false -> String.prefix old s = true ->
  replace_scan old new s 0
  = (new ++ replace_scan old new (drop (String.length old) s) 0)%string.
Proof.
  intros Hne Hp. destruct s as [|c s].
  - destruct old; simpl in *; discriminate.
  - cbn [replace_scan]. rewrite Hp, replace_scan_skip.
    destruct old as [|a old]; [discriminate|].
    cbn [String.length drop Nat.sub]. now rewrite Nat.sub_0_r.
Qed.

End StringFacts.

(** ** redact_text *)

Section RedactText.

Import PyStr.

Lemma redact_text_stripped (text : option string) :
  strip (redact_text text) = redact_text text.
Proof.
  destruct text as [t|]; [|reflexivity].
  unfold redact_text. destruct (is_empty t); [reflexivity|].
  apply strip_idem.
Qed.

Lemma redact_text_length (t : string) :
  String.length (redact_text (Some t)) <= String.length t.
Proof.
  unfold redact_text. destruct (is_empty t); [simpl; lia|].
  pose proof (strip_length
                (replace "[removed]" "" (replace "[deleted]" "" t))).
  pose proof (remove_length "[removed]" (replace "[deleted]" "" t)).
  pose proof (remove_length "[deleted]" t). lia.
Qed.

(** C2, at an input that nests one placeholder in another: removing the
    inner one leaves the outer one for a second pass. *)
Lemma redact_text_not_idempotent :
  redact_text (Some (redact_text (Some "[de[deleted]leted]")))
  <> redact_text (Some "[de[deleted]leted]").
Proof. vm_compute. discriminate. Qed.

(** C2 (amended): for every input whose sanitized text contains neither
    placeholder, sanitizing that text again leaves it unchanged. *)
Theorem redact_text_idempotent_on_clean (text : option string) :
  contains "[deleted]" (redact_text text) = false ->
  contains "[removed]" (redact_text text) = false ->
  redact_text (Some (redact_text text)) = redact_text text.
Proof.
  intros Hd Hr.
  pose proof (redact_text_stripped text) as Hs.
  remember (redact_text text) as t eqn:Et. clear Et.
  unfold redact_text.
  destruct (is_empty t) eqn:E.
  - destruct t; [reflexivity | discriminate].
  - rewrite (replace_absent _ _ _ Hd), (replace_absent _ _ _ Hr). exact Hs.
Qed.

Lemma redact_text_idempotent_on_clean_witness :
  contains "[deleted]" (redact_text (Some " a [deleted] [x] ")) = false /\
  contains "[removed]" (redact_text (Some " a [deleted] [x] ")) = false /\
  redact_text (Some (redact_text (Some " a [deleted] [x] ")))
  = redact_text (Some " a [deleted] [x] ").
Proof.
  split; [reflexivity|]. split; [reflexivity|].
  apply (redact_text_idempotent_on_clean (Some " a [deleted] [x] "));
    reflexivity.
Defined.

(** The condition is the exact one: a sanitized text that still contains a
    placeholder is shortened by a second pass. *)
Lemma redact_text_changes_unclean (text : option string) :
  contains "[deleted]" (redact_text text) = true \/
  contains "[removed]" (redact_text text) = true ->
  redact_text (Some (redact_text text)) <> redact_text text.
Proof.
  remember (redact_text text) as t eqn:Et. clear Et.
  intros H Heq.
  assert (L : String.length (redact_text (Some t)) < String.length t).
  { unfold redact_text. destruct (is_empty t) eqn:E.
    - destruct t; [|discriminate]. destruct H as [H|H]; discriminate.
    - pose proof (strip_length
                    (replace "[removed]" "" (replace "[deleted]" "" t))).
      pose proof (remove_length "[removed]" (replace "[deleted]" "" t)).
      pose proof (remove_length "[deleted]" t).
      destruct (contains "[deleted]" t) eqn:Hd.
      + pose proof (remove_shorter "[deleted]" t eq_refl Hd). lia.
      + destruct H as [H|H]; [discriminate|].
        rewrite (replace_absent _ _ _ Hd) in *.
        pose proof (remove_shorter "[removed]" t eq_refl H). lia. }
  rewrite Heq in L. lia.
Qed.

End RedactText.

(** ** sorted and slicing *)

Section Sorting.

Context {A : Type} (key : A -> Z).

Lemma insert_perm (x : A) (l : list A) : Permutation (x :: l) (insert key x l).
Proof.
  induction l as [|y ys IH]; simpl; [apply Permutation_refl|].
  destruct (key x <=? key y)%Z; [apply Permutation_refl|].
  eapply perm_trans; [apply perm_swap|]. now apply perm_skip.
Qed.

Lemma sort_stable_perm (l : list A) : Permutation l (sort_stable key l).
Proof.
  induction l as [|x xs IH]; simpl; [constructor|].
  eapply perm_trans; [apply perm_skip, IH | apply insert_perm].
Qed.

Lemma insert_sorted (x : A) (l : list A) :
  StronglySorted (ascending key) l -> StronglySorted (ascending key) (insert key x l).
Proof.
  induction 1 as [|y ys Hs IH Hall]; simpl.
  - repeat constructor.
  - destruct (key x <=? key y)%Z eqn:E.
    + apply Z.leb_le in E. constructor; [now constructor|].
      constructor; [exact E|].
      eapply Forall_impl; [|exact Hall].
      unfold ascending. intros; lia.
    + apply Z.leb_gt in E. constructor; [exact IH|].
      eapply Permutation_Forall; [apply insert_perm|].
      constructor; [unfold ascending; lia | exact Hall].
Qed.

Lemma sort_stable_sorted (l : list A) :
  StronglySorted (ascending key) (sort_stable key l).
Proof.
  induction l as [|x xs IH]; simpl; [constructor | now apply insert_sorted].
Qed.

(** Stability: the elements of one key keep their order. *)
Lemma insert_filter (k : Z) (x : A) (l : list A) :
  filter (fun a => (key a =? k)%Z) (insert key x l)
  = filter (fun a => (key a =? k)%Z) (x :: l).
Proof.
  induction l as [|y ys IH]; [reflexivity|].
  cbn [insert]. destruct (key x <=? key y)%Z eqn:E; [reflexivity|].
  apply Z.leb_gt in E.
  cbn [filter] in *. rewrite IH.
  destruct (key x =? k)%Z eqn:Ex, (key y =? k)%Z eqn:Ey; try reflexivity.
  apply Z.eqb_eq in Ex, Ey. lia.
Qed.

Lemma sort_stable_filter (k : Z) (l : list A) :
  filter (fun a => (key a =? k)%Z) (sort_stable key l)
  = filter (fun a => (key a =? k)%Z) l.
Proof.
  induction l as [|x xs IH]; [reflexivity|].
  cbn [sort_stable]. rewrite insert_filter. cbn [filter]. now rewrite IH.
Qed.

Lemma sorted_filter (k : Z) (l : list A) (reverse : bool) :
  filter (fun a => (key a =? k)%Z) (sorted l key reverse)
  = filter (fun a => (key a =? k)%Z) l.
Proof.
  unfold sorted. destruct reverse.
  - now rewrite filter_rev, sort_stable_filter, filter_rev, rev_involutive.
  - apply sort_stable_filter.
Qed.

Lemma sorted_perm (l : list A) (reverse : bool) :
  Permutation l (sorted l key reverse).
Proof.
  unfold sorted. destruct reverse.
  - eapply perm_trans; [apply Permutation_rev|].
    eapply perm_trans; [apply sort_stable_perm | apply Permutation_rev].
  - apply sort_stable_perm.
Qed.

Lemma strongly_sorted_snoc (R : A -> A -> Prop) (l : list A) (x : A) :
  StronglySorted R l -> Forall (fun y => R y x) l ->
  StronglySorted R (l ++ [x]).
Proof.
  induction 1 as [|y ys Hs IH Hall]; intros Hx; simpl.
  - repeat constructor.
  - inversion Hx; subst. constructor; [now apply IH|].
    apply Forall_app. split; [exact Hall | now constructor].
Qed.

Lemma strongly_sorted_rev (l : list A) :
  StronglySorted (ascending key) l -> StronglySorted (descending key) (rev l).
Proof.
  induction 1 as [|y ys Hs IH Hall]; simpl; [constructor|].
  apply strongly_sorted_snoc; [exact IH|].
  apply Forall_rev. eapply Forall_impl; [|exact Hall].
  unfold ascending, descending. intros; lia.
Qed.

Lemma sorted_reverse_descending (l : list A) :
  StronglySorted (descending key) (sorted l key true).
Proof. apply strongly_sorted_rev, sort_stable_sorted. Qed.

Lemma strongly_sorted_firstn (R : A -> A -> Prop) (n : nat) (l : list A) :
  StronglySorted R l -> StronglySorted R (firstn n l).
Proof.
  intros H. revert n. induction H as [|y ys Hs IH Hall]; intros [|n]; simpl;
    try constructor.
  - apply IH.
  - rewrite <- (firstn_skipn n ys) in Hall.
    now apply Forall_app in Hall.
Qed.

Lemma strongly_sorted_nth (R : A -> A -> Prop) (l : list A) :
  StronglySorted R l ->
  forall i j x y,
    i < j -> nth_error l i = Some x -> nth_error l j = Some y -> R x y.
Proof.
  induction 1 as [|a l Hs IH Hall]; intros i j x y Hij Hi Hj.
  - destruct i; discriminate.
  - destruct j as [|j]; [lia|]. cbn [nth_error] in Hj.
    destruct i as [|i]; cbn [nth_error] in Hi.
    + injection Hi as <-. rewrite Forall_forall in Hall.
      apply Hall. eapply nth_error_In; eauto.
    + apply (IH i j); auto. lia.
Qed.

(** A slice [l[:n]] is a leading part of [l], whatever the sign of [n]. *)
Lemma slice_to_firstn (l : list A) (n : Z) :
  exists m, slice_to l n = firstn m l.
Proof. unfold slice_to. destruct (0 <=? n)%Z; eauto. Qed.

Lemma slice_to_length (l : list A) (n : Z) :
  (0 <= n)%Z -> (Z.of_nat (length (slice_to l n)) <= n)%Z.
Proof.
  intros H. unfold slice_to.
  destruct (0 <=? n)%Z eqn:E; [|apply Z.leb_gt in E; lia].
  pose proof (firstn_le_length (Z.to_nat n) l). lia.
Qed.

Lemma firstn_filter_prefix (f : A -> bool) (m : nat) (l : list A) :
  exists tail, filter f l = filter f (firstn m l) ++ tail.
Proof.
  exists (filter f (skipn m l)).
  now rewrite <- filter_app, firstn_skipn.
Qed.

End Sorting.

(** ** extract_top_comments *)

Section ExtractTopComments.

Local Open Scope py_scope.

Lemma for_comments_retained (nodes : list node) :
  forall acc r, for_comments nodes acc = Ok r -> r = acc ++ retained nodes.
Proof.
  induction nodes as [|c rest IH]; intros acc r; cbn [for_comments].
  - intros [= <-]. simpl. now rewrite app_nil_r.
  - unfold retained. cbn [flat_map]. unfold kept at 1.
    destruct (visit c) as [[d|]|e]; try discriminate.
    + intros H. apply IH in H. now rewrite H, <- app_assoc.
    + apply IH.
Qed.

Lemma visit_sound (c : node) :
  sound c = true -> exists r, visit c = Ok r.
Proof.
  destruct c as [|c]; [simpl; eauto|].
  unfold sound, visit, has_attr, readable, getattr, getattr_direct.
  destruct (c_id c), (c_body c) as [b| |], (c_score c), (c_created_utc c),
    (c_is_submitter c); cbn [andb]; try discriminate; intros _;
    repeat match goal with
      | |- context [if ?b then _ else _] => destruct b
      end; eauto.
Qed.

Lemma for_comments_sound (nodes : list node) :
  forallb sound nodes = true ->
  forall acc, for_comments nodes acc = Ok (acc ++ retained nodes).
Proof.
  induction nodes as [|c rest IH]; cbn [forallb for_comments]; intros H acc.
  - simpl. now rewrite app_nil_r.
  - apply andb_true_iff in H as [Hc Hr].
    unfold retained. cbn [flat_map]. unfold kept at 1.
    destruct (visit_sound c Hc) as [[d|] ->].
    + rewrite (IH Hr). now rewrite <- app_assoc.
    + apply (IH Hr).
Qed.

(** What a normal return of [extract_top_comments] is made of. *)
Lemma extract_top_comments_returns (post : Submission) (top_n : Z)
  (lg lg' : list log_entry) (res : list comment_dict) :
  extract_top_comments post top_n lg = (Ok res, lg') ->
  exists nodes,
    s_comments post = Ok nodes /\
    for_comments nodes [] = Ok (retained nodes) /\
    res = slice_to (sorted (retained nodes) score_key true) top_n.
Proof.
  unfold extract_top_comments, bind, try_except, lift, ret, warning.
  destruct (s_replace_more post) as [[]|e0].
  - destruct (s_comments post) as [nodes|e]; [|discriminate].
    destruct (for_comments nodes []) as [cs|e] eqn:F; [|discriminate].
    intros [= <- <-]. exists nodes.
    pose proof (for_comments_retained _ _ _ F) as ->. auto.
  - unfold getattr_direct.
    destruct (s_id post); try discriminate.
    destruct (s_comments post) as [nodes|e]; [|discriminate].
    destruct (for_comments nodes []) as [cs|e] eqn:F; [|discriminate].
    intros [= <- <-]. exists nodes.
    pose proof (for_comments_retained _ _ _ F) as ->. auto.
Qed.

(** C1: for every post and every non-negative [top_n], the list
    [extract_top_comments] returns has at most [top_n] elements, and the
    scores of its elements do not increase from first to last: the list is
    descending for the key of the sort ([None] counting as 0), so of two
    returned elements with numeric scores the earlier one has the greater
    or equal score. *)
Theorem extract_top_comments_bounded_descending
  (post : Submission) (top_n : Z) (lg lg' : list log_entry)
  (res : list comment_dict) :
  (0 <= top_n)%Z ->
  extract_top_comments post top_n lg = (Ok res, lg') ->
  (Z.of_nat (length res) <= top_n)%Z /\
  StronglySorted (descending score_key) res /\
  (forall i j x y a b,
     i < j -> nth_error res i = Some x -> nth_error res j = Some y ->
     cd_score x = Some a -> cd_score y = Some b -> (a >= b)%Z).
Proof.
  intros Hn H.
  apply extract_top_comments_returns in H as (nodes & _ & _ & ->).
  split; [now apply slice_to_length|].
  assert (S : StronglySorted (descending score_key)
                (slice_to (sorted (retained nodes) score_key true) top_n)).
  { destruct (slice_to_firstn (sorted (retained nodes) score_key true) top_n)
      as [m ->].
    apply strongly_sorted_firstn, sorted_reverse_descending. }
  split; [exact S|].
  intros i j x y a b Hij Hi Hj Ha Hb.
  pose proof (strongly_sorted_nth _ _ S i j x y Hij Hi Hj) as D.
  unfold descending, score_key in D. now rewrite Ha, Hb in D.
Qed.

Lemma extract_top_comments_bounded_descending_witness :
  (Z.of_nat (length [dict "c3" "best" 9; dict "c1" "ok" 5]) <= 2)%Z /\
  StronglySorted (descending score_key)
    [dict "c3" "best" 9; dict "c1" "ok" 5] /\
  (forall i j x y a b,
     i < j ->
     nth_error [dict "c3" "best" 9; dict "c1" "ok" 5] i = Some x ->
     nth_error [dict "c3" "best" 9; dict "c1" "ok" 5] j = Some y ->
     cd_score x = Some a -> cd_score y = Some b -> (a >= b)%Z).
Proof.
  apply (extract_top_comments_bounded_descending scenario_post 2 [] []).
  - lia.
  - reflexivity.
Defined.

Lemma filter_filter_sub {A} (f g : A -> bool) (l : list A) :
  (forall x, f x = true -> g x = true) ->
  filter f (filter g l) = filter f l.
Proof.
  intros H. induction l as [|x xs IH]; [reflexivity|].
  cbn [filter]. destruct (g x) eqn:G; cbn [filter].
  - now rewrite IH.
  - destruct (f x) eqn:F; [|exact IH].
    apply H in F. congruence.
Qed.

(** Elements with the same [score] entry have the same sort key. *)
Lemma same_score_key (sc : option Z) (x : comment_dict) :
  same_score sc x = true ->
  (score_key x =? match sc with Some n => n | None => 0 end)%Z = true.
Proof.
  unfold same_score, score_key.
  destruct sc as [a|], (cd_score x) as [b|]; try discriminate.
  - intros H. apply Z.eqb_eq in H as ->. apply Z.eqb_refl.
  - reflexivity.
Qed.

(** C5: the sort is stable. For every score, the returned comments of that
    score are, in the order returned, a leading part of the retained
    comments of that score in the provider's order; and on the scenario
    [{5,"ok"}; {5,"[removed]"}; {9,"best"}] with N = 2 the result is
    [{9,"best"}; {5,"ok"}]. *)
Theorem extract_top_comments_stable
  (post : Submission) (top_n : Z) (lg lg' : list log_entry)
  (nodes : list node) (res : list comment_dict) (sc : option Z) :
  s_comments post = Ok nodes ->
  extract_top_comments post top_n lg = (Ok res, lg') ->
  (exists tail,
     filter (same_score sc) (retained nodes)
     = filter (same_score sc) res ++ tail) /\
  extract_top_comments scenario_post 2 []
  = (Ok [dict "c3" "best" 9; dict "c1" "ok" 5], []).
Proof.
  intros Hc H. split; [|reflexivity].
  apply extract_top_comments_returns in H as (nodes' & Hc' & _ & ->).
  assert (nodes' = nodes) as -> by congruence.
  set (k := match sc with Some n => n | None => 0%Z end).
  set (byk := fun a => (score_key a =? k)%Z).
  rewrite <- (filter_filter_sub (same_score sc) byk (retained nodes))
    by apply same_score_key.
  unfold byk.
  rewrite <- (sorted_filter score_key k (retained nodes) true).
  rewrite (filter_filter_sub (same_score sc) _ _ (same_score_key sc)).
  destruct (slice_to_firstn (sorted (retained nodes) score_key true) top_n)
    as [m ->].
  apply firstn_filter_prefix.
Qed.

Lemma extract_top_comments_stable_witness :
  (exists tail,
     filter (same_score (Some 5%Z)) (retained scenario_comments)
     = filter (same_score (Some 5%Z))
         [dict "c3" "best" 9; dict "c1" "ok" 5] ++ tail) /\
  extract_top_comments scenario_post 2 []
  = (Ok [dict "c3" "best" 9; dict "c1" "ok" 5], []).
Proof.
  apply (extract_top_comments_stable scenario_post 2 [] []
           scenario_comments); reflexivity.
Defined.

(** An excluded comment is passed over by the loop. *)
Lemma visit_excluded (c : Comment) :
  excluded c = true -> visit (CommentNode c) = Ok None.
Proof.
  unfold excluded, visit, getattr.
  destruct (c_body c) as [[b|]| |]; try discriminate; try reflexivity.
  cbn [falsy str_of_opt]. intros H.
  destruct (PyStr.is_empty b); [reflexivity|].
  cbn [orb] in H. now rewrite H.
Qed.

Lemma visit_some_not_excluded (c : Comment) (r : comment_dict) :
  visit (CommentNode c) = Ok (Some r) -> excluded c = false.
Proof.
  intros H. destruct (excluded c) eqn:E; [|reflexivity].
  rewrite (visit_excluded c E) in H. discriminate.
Qed.

Lemma for_comments_skip (c : node) (l1 l2 : list node) :
  visit c = Ok None ->
  forall acc, for_comments (l1 ++ c :: l2) acc = for_comments (l1 ++ l2) acc.
Proof.
  intros Hc. induction l1 as [|x xs IH]; intros acc; cbn [app for_comments].
  - now rewrite Hc.
  - destruct (visit x) as [[d|]|e]; auto.
Qed.

(** The result depends on the comment sequence through the loop only. *)
Lemma extract_top_comments_congr (post : Submission) (top_n : Z)
  (lg : list log_entry) (nodes nodes' : list node) :
  for_comments nodes [] = for_comments nodes' [] ->
  extract_top_comments (with_comments post nodes) top_n lg
  = extract_top_comments (with_comments post nodes') top_n lg.
Proof.
  intros H.
  unfold extract_top_comments, bind, try_except, lift, with_comments.
  cbn [s_replace_more s_id s_comments].
  destruct (s_replace_more post) as [[]|e0].
  - now rewrite H.
  - destruct (getattr_direct _ _ (s_id post)); [|reflexivity].
    unfold warning. now rewrite H.
Qed.

Lemma retained_in (nodes : list node) (r : comment_dict) :
  In r (retained nodes) ->
  exists c, In (CommentNode c) nodes /\ visit (CommentNode c) = Ok (Some r).
Proof.
  unfold retained. rewrite in_flat_map. intros (x & Hx & Hr).
  unfold kept in Hr.
  destruct (visit x) as [[d|]|e] eqn:V; try contradiction.
  destruct Hr as [<-|[]].
  destruct x as [|c]; [discriminate|]. eauto.
Qed.

Lemma slice_to_in {A} (l : list A) (n : Z) (x : A) :
  In x (slice_to l n) -> In x l.
Proof.
  destruct (slice_to_firstn l n) as [m ->].
  intros H. rewrite <- (firstn_skipn m l). apply in_or_app. now left.
Qed.

(** C4: a comment whose body is missing, empty, or a sentinel once trimmed
    and lowercased does not appear in the result: the result is the one
    the post gives without that comment, and every element returned was
    built from a comment of the sequence that is not such a comment. *)
Theorem extract_top_comments_skips_excluded
  (post : Submission) (top_n : Z) (lg : list log_entry)
  (l1 l2 : list node) (c : Comment) :
  excluded c = true ->
  extract_top_comments (with_comments post (l1 ++ CommentNode c :: l2))
    top_n lg
  = extract_top_comments (with_comments post (l1 ++ l2)) top_n lg
  /\
  forall res lg',
    extract_top_comments (with_comments post (l1 ++ CommentNode c :: l2))
      top_n lg = (Ok res, lg') ->
    forall r, In r res ->
      exists c', In (CommentNode c') (l1 ++ l2) /\ excluded c' = false /\
                 visit (CommentNode c') = Ok (Some r).
Proof.
  intros E.
  assert (Heq : extract_top_comments
                  (with_comments post (l1 ++ CommentNode c :: l2)) top_n lg
                = extract_top_comments (with_comments post (l1 ++ l2))
                    top_n lg).
  { apply extract_top_comments_congr, for_comments_skip.
    now apply visit_excluded. }
  split; [exact Heq|].
  intros res lg' H r Hr. rewrite Heq in H.
  apply extract_top_comments_returns in H as (nodes & Hn & _ & ->).
  cbn [with_comments s_comments] in Hn. injection Hn as <-.
  apply slice_to_in in Hr.
  apply (Permutation_in _ (Permutation_sym (sorted_perm _ _ _))) in Hr.
  apply retained_in in Hr as (c' & Hin & Hv).
  exists c'. repeat split; auto.
  now apply visit_some_not_excluded in Hv.
Qed.

Lemma extract_top_comments_skips_excluded_witness :
  extract_top_comments
    (with_comments scenario_post
       ([comment "c1" "ok" 5]
        ++ CommentNode {| c_id := Present "c2";
                          c_body := Present (Some "  [Removed] ");
                          c_score := Present (Some 50%Z);
                          c_created_utc := Missing;
                          c_is_submitter := Missing |}
        :: [comment "c3" "best" 9])) 2 []
  = (Ok [dict "c3" "best" 9; dict "c1" "ok" 5], []).
Proof.
  etransitivity.
  - apply (extract_top_comments_skips_excluded scenario_post 2 []).
    reflexivity.
  - reflexivity.
Defined.

(** C3, at a post whose comment forest cannot be fetched: the failed
    expansion is logged, then the iteration raises and the exception leaves
    the function. *)
Lemma extract_top_comments_can_raise :
  extract_top_comments unreachable_post 5 []
  = (Raise provider_error,
     [(WARNING, "replace_more failed for p2: received 503")])
  /\ forall res lg',
       extract_top_comments unreachable_post 5 [] <> (Ok res, lg').
Proof.
  split; [reflexivity|]. intros res lg'. vm_compute. discriminate.
Qed.

(** C3 (amended): when the comment expansion raises, the function logs a
    warning and returns normally with the comments already there, provided
    the post's id can be read and neither the comment iteration nor the
    reading of a comment's attributes raises; an exception raised by the
    comment iteration itself is not caught. *)
Theorem extract_top_comments_survives_expansion_only
  (post : Submission) (top_n : Z) (lg : list log_entry) :
  (forall e id nodes,
     s_replace_more post = Raise e ->
     s_id post = Present id ->
     s_comments post = Ok nodes ->
     forallb sound nodes = true ->
     extract_top_comments post top_n lg
     = (Ok (slice_to (sorted (retained nodes) score_key true) top_n),
        lg ++ [(WARNING,
                ("replace_more failed for " ++ id ++ ": "
                 ++ exn_msg e)%string)]))
  /\
  (forall e, s_comments post = Raise e ->
     forall res lg', extract_top_comments post top_n lg <> (Ok res, lg')).
Proof.
  split.
  - intros e id nodes Hr Hi Hc Hs.
    unfold extract_top_comments, bind, try_except, lift, ret, warning.
    rewrite Hr, Hi, Hc. cbn [getattr_direct].
    rewrite (for_comments_sound nodes Hs []). reflexivity.
  - intros e Hc res lg' H.
    apply extract_top_comments_returns in H as (nodes & Hn & _).
    congruence.
Qed.

Lemma extract_top_comments_survives_expansion_only_witness :
  extract_top_comments unexpanded_post 5 []
  = (Ok [dict "c1" "ok" 5],
     [(WARNING, "replace_more failed for p3: received 503")]).
Proof.
  apply (proj1 (extract_top_comments_survives_expansion_only
                  unexpanded_post 5 [])
           provider_error "p3" [comment "c1" "ok" 5; MoreComments]);
    reflexivity.
Defined.

(** C9: the filter and the sanitizer are not aligned. The body
    "[deleted][removed]" is not a sentinel, so its comment is retained,
    and [redact_text] maps it to the empty string: the function returns a
    record with an empty body. *)
Theorem extract_top_comments_returns_empty_body :
  is_sentinel "[deleted][removed]" = false /\
  redact_text (Some "[deleted][removed]") = "" /\
  exists post top_n res r,
    extract_top_comments post top_n [] = (Ok res, []) /\
    In r res /\ cd_body r = "".
Proof.
  split; [reflexivity|]. split; [reflexivity|].
  exists placeholders_post, 5%Z, [dict "c1" "" 3], (dict "c1" "" 3).
  split; [reflexivity|]. split; [now left | reflexivity].
Qed.

End ExtractTopComments.

(** ** scrape_subreddit *)

Section ScrapeSubreddit.

Local Open Scope py_scope.

(** One pass through the [try] body either leaves both sinks as they were,
    or returns normally having written, through an open handle, one record
    and one row whose title is the non-empty sanitized title of the post. *)
Lemma try_post_cases (post : Submission) (top_comments : Z) (st : run_state) :
  let st' := snd (try_post post top_comments st) in
  (written st' = written st /\ rows st' = rows st /\ count st' = count st
   /\ closed st' = closed st)
  \/
  (fst (try_post post top_comments st) = Ok tt /\
   closed st = false /\ closed st' = false /\
   exists d row t,
     s_title post = Present t /\ redact_text t <> "" /\
     pd_title d = redact_text t /\ row_title row = redact_text t /\
     written st' = written st ++ [d] /\ rows st' = rows st ++ [row] /\
     count st' = S (count st)).
Proof.
  unfold try_post, bind, lift, ret, with_logger, getattr_direct, getattr,
    written, closed.
  cbn.
  destruct (s_id post) as [id| |]; cbn; try (left; repeat split; reflexivity).
  destruct (s_title post) as [t| |]; cbn;
    try (left; repeat split; reflexivity).
  do 5 read_attr.
  all: destruct (extract_top_comments post top_comments (logger st))
    as [[res|e] lg']; cbn; try (left; repeat split; reflexivity).
  all: destruct (redact_text t =? "") eqn:E; cbn;
    try (left; repeat split; reflexivity).
  all: apply String.eqb_neq in E.
  all: unfold jsonl_write; cbn.
  all: destruct (f_closed (jsonl_f st)) eqn:C; cbn;
    [left; repeat split; cbn; auto|].
  all: right; repeat split.
  all: do 2 eexists; exists t; repeat split; try reflexivity; exact E.
Qed.

(** The handler closes the handle and writes nothing. *)
Lemma except_post_effect (post : Submission) (e : exn) (st : run_state) :
  let st' := snd (except_post post e st) in
  closed st' = true /\ written st' = written st /\ rows st' = rows st /\
  count st' = count st.
Proof.
  unfold except_post, bind, lift, jsonl_close, log, getattr, attr_map,
    written, closed.
  cbn. destruct (s_id post); cbn; auto.
Qed.

Lemma except_post_returns (post : Submission) (e : exn) (st : run_state) :
  readable (s_id post) = true -> fst (except_post post e st) = Ok tt.
Proof.
  unfold except_post, bind, lift, jsonl_close, log, getattr, attr_map,
    readable.
  cbn. destruct (s_id post); cbn; auto. discriminate.
Qed.

Lemma process_post_after_raise (post : Submission) (top_comments : Z)
  (st st1 : run_state) (e : exn) :
  try_post post top_comments st = (Raise e, st1) ->
  let st' := snd (process_post post top_comments st) in
  closed st' = true /\ written st' = written st /\ rows st' = rows st /\
  count st' = count st.
Proof.
  intros H. unfold process_post, try_except. rewrite H.
  pose proof (try_post_cases post top_comments st) as C.
  rewrite H in C. cbn [fst snd] in C.
  destruct C as [(W & R & N & _) | (C & _)]; [|discriminate].
  destruct (except_post_effect post e st1) as (C' & W' & R' & N').
  cbn zeta. rewrite <- W, <- R, <- N. auto.
Qed.

(** Through a closed handle nothing is written, and it stays closed. *)
Lemma process_post_closed (post : Submission) (top_comments : Z)
  (st : run_state) :
  closed st = true ->
  let st' := snd (process_post post top_comments st) in
  closed st' = true /\ written st' = written st /\ rows st' = rows st /\
  count st' = count st.
Proof.
  intros Hc.
  destruct (try_post post top_comments st) as [[[]|e] st1] eqn:T.
  - pose proof (try_post_cases post top_comments st) as C.
    unfold process_post, try_except. rewrite T in *. cbn [fst snd] in *.
    destruct C as [(W & R & N & K) | (_ & K & _)]; [|congruence].
    cbn zeta. rewrite K. auto.
  - now apply (process_post_after_raise post top_comments st st1 e).
Qed.

Lemma for_posts_closed (posts : list Submission) (top_comments : Z) :
  forall st, closed st = true ->
  let st' := snd (for_posts posts top_comments st) in
  closed st' = true /\ written st' = written st /\ rows st' = rows st /\
  count st' = count st.
Proof.
  induction posts as [|post rest IH]; intros st Hc; [cbn; auto|].
  cbn [for_posts]. unfold bind.
  destruct (process_post_closed post top_comments st Hc) as (C & W & R & N).
  destruct (process_post post top_comments st) as [[[]|e] st1];
    cbn [snd] in *.
  - destruct (IH st1 C) as (C' & W' & R' & N'). cbn zeta in *.
    rewrite <- W, <- R, <- N. auto.
  - auto.
Qed.

Lemma process_post_returns (post : Submission) (top_comments : Z)
  (st : run_state) :
  readable (s_id post) = true ->
  fst (process_post post top_comments st) = Ok tt.
Proof.
  intros H. unfold process_post, try_except.
  destruct (try_post post top_comments st) as [[[]|e] st1]; [reflexivity|].
  now apply except_post_returns.
Qed.

Lemma for_posts_returns (posts : list Submission) (top_comments : Z) :
  forallb (fun p => readable (s_id p)) posts = true ->
  forall st, fst (for_posts posts top_comments st) = Ok tt.
Proof.
  induction posts as [|post rest IH]; cbn [forallb for_posts]; intros H st;
    [reflexivity|].
  apply andb_true_iff in H as [Hp Hr]. unfold bind.
  pose proof (process_post_returns post top_comments st Hp) as P.
  destruct (process_post post top_comments st) as [[[]|e] st1];
    cbn [fst] in P; [apply (IH Hr) | discriminate].
Qed.

Lemma process_post_titled (post : Submission) (top_comments : Z)
  (st : run_state) :
  titled st -> titled (snd (process_post post top_comments st)).
Proof.
  intros [Hw Hr]. unfold titled.
  pose proof (try_post_cases post top_comments st) as C.
  unfold process_post, try_except.
  destruct (try_post post top_comments st) as [[[]|e] st1];
    cbn [fst snd] in *.
  - destruct C as [(W & R & _) | (_ & _ & _ & d & row & t & _ & Ht & Hd & Hrow
                                  & W & R & _)].
    + now rewrite W, R.
    + rewrite W, R. split; apply Forall_app; split; auto;
        constructor; auto; congruence.
  - destruct C as [(W & R & _) | (C & _)]; [|discriminate].
    destruct (except_post_effect post e st1) as (_ & W' & R' & _).
    cbn zeta in *. rewrite W', R', W, R. auto.
Qed.

Lemma for_posts_titled (posts : list Submission) (top_comments : Z) :
  forall st, titled st -> titled (snd (for_posts posts top_comments st)).
Proof.
  induction posts as [|post rest IH]; intros st H; [exact H|].
  cbn [for_posts]. unfold bind.
  pose proof (process_post_titled post top_comments st H) as P.
  destruct (process_post post top_comments st) as [[[]|e] st1];
    cbn [snd] in *; auto.
Qed.

(** A post whose sanitized title is empty leaves both sinks untouched. *)
Lemma process_post_untitled (post : Submission) (top_comments : Z)
  (st : run_state) (t : option string) :
  s_title post = Present t -> redact_text t = "" ->
  let st' := snd (process_post post top_comments st) in
  written st' = written st /\ rows st' = rows st.
Proof.
  intros Ht He.
  pose proof (try_post_cases post top_comments st) as C.
  unfold process_post, try_except.
  destruct (try_post post top_comments st) as [[[]|e] st1];
    cbn [fst snd] in *.
  - destruct C as [(W & R & _) | (_ & _ & _ & d & row & t' & Ht' & Hne & _)];
      [auto|].
    rewrite Ht in Ht'. injection Ht' as <-. contradiction.
  - destruct C as [(W & R & _) | (C & _)]; [|discriminate].
    destruct (except_post_effect post e st1) as (_ & W' & R' & _).
    cbn zeta in *. rewrite W', R'. auto.
Qed.

(** C6: in every run of [scrape_subreddit], every record written to the
    JSONL file and every row of the CSV table has a non-empty sanitized
    title; and at any point of the loop a post whose sanitized title is
    empty adds nothing to the file nor to the row buffer. *)
Theorem scrape_subreddit_writes_titled_only
  (env : Env) (subreddit_name sort time_filter : string)
  (limit top_comments : Z) (output_prefix : string) (lg : list log_entry) :
  let r := scrape_subreddit env subreddit_name sort time_filter limit
             top_comments output_prefix lg in
  (forall f, r_jsonl r = Some f ->
     Forall (fun d => pd_title d <> "") (f_written f)) /\
  (forall name table, r_csv r = Some (name, table) ->
     Forall (fun row => row_title row <> "") table) /\
  (forall post st t,
     s_title post = Present t -> redact_text t = "" ->
     let st' := snd (process_post post top_comments st) in
     written st' = written st /\ rows st' = rows st).
Proof.
  cbn zeta. split; [|split].
  3: { intros post st t. apply process_post_untitled. }
  all: unfold scrape_subreddit.
  all: destruct (init_reddit_creds env) as [reddit|e]; [|discriminate].
  all: destruct (select _ _ _ _) as [l w].
  all: destruct (open_w env _) as [[]|e0]; [|discriminate].
  all: match goal with
       | |- context [for_listing ?l0 ?n ?s0] =>
           assert (T : titled (snd (for_posts (items l0) n s0)))
             by (apply for_posts_titled; split; constructor);
           unfold for_listing, bind, raise, ret;
           destruct (for_posts (items l0) n s0) as [[[]|e] st]
       end.
  all: cbn [snd] in T; destruct T as [Tw Tr].
  all: try destruct (fault _); cbn; try destruct (to_csv env _ _); cbn;
    intros;
    repeat match goal with
      | H : Some _ = Some _ |- _ => injection H as <-
      | H : None = Some _ |- _ => discriminate
      end; subst; auto.
Qed.

Lemma scrape_subreddit_writes_titled_only_witness :
  r_jsonl (scrape_subreddit sample_env "soccercirclejerk" "top" "all" 250 5
             "dataset" []) = Some sample_jsonl /\
  Forall (fun d => pd_title d <> "") (f_written sample_jsonl).
Proof.
  assert (E : r_jsonl (scrape_subreddit sample_env "soccercirclejerk" "top"
                         "all" 250 5 "dataset" []) = Some sample_jsonl)
    by (vm_compute; reflexivity).
  split; [exact E|].
  exact (proj1 (scrape_subreddit_writes_titled_only sample_env
                  "soccercirclejerk" "top" "all" 250 5 "dataset" [])
           sample_jsonl E).
Defined.

End ScrapeSubreddit.

(** ** subredditScraper.py *)

Section MinimalScraper.

Import subredditScraper.

Lemma bodies_raw (l : list node) :
  forall bs, bodies l = Ok bs -> Forall2 raw_body l bs.
Proof.
  induction l as [|c rest IH]; cbn [bodies]; intros bs.
  - intros [= <-]. constructor.
  - destruct (body_of c) as [b|e] eqn:B; [|discriminate].
    destruct (bodies rest) as [bs'|e]; [|discriminate].
    intros [= <-]. constructor; [|now apply IH].
    destruct c as [|c']; [discriminate|].
    exists c'. split; [reflexivity|].
    cbn [body_of] in B. unfold getattr_direct in B.
    destruct (c_body c'); congruence.
Qed.

(** C10: for every post the minimal script processes, the comments it
    records are the bodies, as they are, of the first five elements of the
    comment sequence, in the provider's order; no ranking, no filter and no
    sanitizer is applied, so the selection is not the one of
    [extract_top_comments] with N = 5: on the scenario post the script
    keeps [ok; [removed]; best] and the extractor [best; ok]. *)
Theorem minimal_scraper_takes_first_five
  (submission : Submission) (data data' : list entry) :
  process submission data = (Ok tt, data') ->
  (exists nodes t st cs,
     s_comments submission = Ok nodes /\
     s_title submission = Present t /\
     s_selftext submission = Present st /\
     Forall2 raw_body (firstn 5 nodes) cs /\
     data' = data ++ [{| title := t; selftext := st; comments := cs |}])
  /\
  (exists post e res,
     process post [] = (Ok tt, [e]) /\
     extract_top_comments post 5 [] = (Ok res, []) /\
     comments e = [Some "ok"; Some "[removed]"; Some "best"] /\
     map cd_body res = ["best"; "ok"] /\
     comments e <> map (fun r => Some (cd_body r)) res).
Proof.
  intros H. split.
  - unfold process, bind, lift, getattr_direct in H.
    destruct (s_replace_more submission) as [[]|e0]; [|discriminate].
    destruct (s_comments submission) as [nodes|e1]; [|discriminate].
    destruct (bodies (slice_to nodes 5)) as [cs|e2] eqn:B; [|discriminate].
    destruct (s_title submission) as [t| |]; try discriminate.
    destruct (s_selftext submission) as [st| |]; try discriminate.
    injection H as <-.
    exists nodes, t, st, cs. repeat split.
    now apply bodies_raw in B.
  - exists scenario_post. do 2 eexists.
    split; [reflexivity|]. split; [reflexivity|].
    split; [reflexivity|]. split; [reflexivity|]. discriminate.
Qed.

Lemma minimal_scraper_takes_first_five_witness :
  exists nodes t st cs,
    s_comments placeholders_post = Ok nodes /\
    s_title placeholders_post = Present t /\
    s_selftext placeholders_post = Present st /\
    Forall2 raw_body (firstn 5 nodes) cs /\
    [{| title := Some "a title"; selftext := Some "";
        comments := [Some "[deleted][removed]"] |}]
    = [] ++ [{| title := t; selftext := st; comments := cs |}].
Proof.
  apply (minimal_scraper_takes_first_five placeholders_post [] _).
  reflexivity.
Defined.

End MinimalScraper.

(** ** dataset_merger.py *)

Section Merger.

Import dataset_merger.








(** A missing input ends the script with what was merged so far in the
    destination, and nothing is printed. *)
Lemma merge_missing_input :
  exists fs',
    merge ["a.jsonl"; "c.jsonl"; "b.jsonl"] "merged.jsonl" sample_files
    = (Raise (Exn "FileNotFoundError"
                "[Errno 2] No such file or directory: 'c.jsonl'"),
       fs', []) /\
    fs' "merged.jsonl" = Some ("{a: 1}" ++ LF ++ LF)%string.
Proof. eexists. split; reflexivity. Qed.

End Merger.

(** * Further properties *)

(** ** redact_text, continued *)

Section RedactTextMore.

Import PyStr.

Lemma rstrip_fixed_last (s : string) (c : ascii) :
  rstrip (s ++ String c "") = (s ++ String c "")%string ->
  is_space c = false.
Proof.
  induction s as [|x s IH]; cbn [append rstrip is_empty].
  - destruct (is_space c); [discriminate | reflexivity].
  - destruct (is_space x && is_empty (rstrip (s ++ String c ""))).
    + discriminate.
    + intros [= H]. now apply IH.
Qed.

Lemma strip_fixed (s : string) :
  strip s = s -> lstrip s = s /\ rstrip s = s.
Proof.
  intros H. split.
  - rewrite <- H. apply lstrip_strip.
  - rewrite <- H. unfold strip. apply rstrip_idem.
Qed.

(** The sanitized text neither begins nor ends with a whitespace
    character. *)
Theorem redact_text_trimmed (text : option string) :
  (forall c s, redact_text text = String c s -> is_space c = false) /\
  (forall s c, redact_text text = (s ++ String c "")%string ->
               is_space c = false).
Proof.
  destruct (strip_fixed _ (redact_text_stripped text)) as [L R].
  split.
  - intros c s E. rewrite E in L. cbn [lstrip] in L.
    destruct (is_space c) eqn:Hc; [|reflexivity].
    pose proof (lstrip_length s) as Len. rewrite L in Len.
    cbn [String.length] in Len. lia.
  - intros s c E. rewrite E in R. now apply rstrip_fixed_last in R.
Qed.

(** Sanitizing never lengthens a text, and a missing or empty one gives the
    empty string. *)
Theorem redact_text_no_longer (t : string) :
  String.length (redact_text (Some t)) <= String.length t /\
  redact_text None = "" /\ redact_text (Some "") = "".
Proof.
  split; [apply redact_text_length|]. split; reflexivity.
Qed.

Lemma redact_text_clean (t : string) :
  contains "[deleted]" t = false ->
  contains "[removed]" t = false ->
  redact_text (Some t) = strip t.
Proof.
  intros Hd Hr. unfold redact_text.
  destruct (is_empty t) eqn:E.
  - destruct t; [reflexivity | discriminate].
  - now rewrite (replace_absent _ _ _ Hd), (replace_absent _ _ _ Hr).
Qed.

(** On a text that contains neither placeholder the sanitizer only trims:
    nothing else (a user name, a URL, an address) is removed. *)
Theorem redact_text_only_trims (t : string) :
  contains "[deleted]" t = false ->
  contains "[removed]" t = false ->
  redact_text (Some t) = strip t.
Proof.
  intros Hd Hr. unfold redact_text.
  destruct (is_empty t) eqn:E.
  - destruct t; [reflexivity | discriminate].
  - rewrite (replace_absent "[deleted]" "" t Hd).
    rewrite (replace_absent "[removed]" "" t Hr).
    reflexivity.
Qed.

Lemma redact_text_trimmed_witness :
  PyStr.is_space "h"%char = false /\ PyStr.is_space "!"%char = false.
Proof.
  split.
  - apply (proj1 (redact_text_trimmed (Some "  [removed] hi!  "))
             "h"%char "i!").
    reflexivity.
  - apply (proj2 (redact_text_trimmed (Some "  [removed] hi!  "))
             "hi" "!"%char).
    reflexivity.
Defined.

Lemma redact_text_only_trims_witness :
  redact_text (Some "  see u/someone at https://example.org  ")
  = strip "  see u/someone at https://example.org  ".
Proof.
  apply (redact_text_only_trims "  see u/someone at https://example.org  ");
    reflexivity.
Defined.

Lemma blank_no_bracket (old : string) (s : string) :
  blank s = true -> contains (String "["%char old) s = false.
Proof.
  induction s as [|c s IH]; cbn [blank contains]; intros H.
  - reflexivity.
  - apply andb_true_iff in H as [Hc Hs]. rewrite (IH Hs), orb_false_r.
    cbn [String.prefix].
    destruct (Ascii.ascii_dec "["%char c) as [<-|]; [|reflexivity].
    discriminate.
Qed.

Lemma blank_lstrip (s : string) : blank s = true -> lstrip s = "".
Proof.
  induction s as [|c s IH]; cbn [blank lstrip]; intros H; [reflexivity|].
  apply andb_true_iff in H as [-> Hs]. auto.
Qed.

(** A text made of whitespace only is sanitized to the empty string. *)
Theorem redact_text_blank (t : string) :
  blank t = true -> redact_text (Some t) = "".
Proof.
  intros H.
  rewrite redact_text_clean by now apply blank_no_bracket.
  unfold strip. now rewrite blank_lstrip.
Qed.

Lemma redact_text_blank_witness :
  redact_text (Some (" " ++ LF ++ "  ")%string) = "".
Proof. apply redact_text_blank. reflexivity. Defined.

(** A sanitized text that still contains a placeholder is strictly
    shortened by sanitizing it again. *)
Theorem redact_text_second_pass_shortens (text : option string) :
  contains "[deleted]" (redact_text text) = true \/
  contains "[removed]" (redact_text text) = true ->
  String.length (redact_text (Some (redact_text text)))
  < String.length (redact_text text).
Proof.
  remember (redact_text text) as t eqn:Et. clear Et.
  intros H.
  unfold redact_text. destruct (is_empty t) eqn:E.
  - destruct t; [|discriminate]. destruct H as [H|H]; discriminate.
  - pose proof (strip_length
                  (replace "[removed]" "" (replace "[deleted]" "" t))).
    pose proof (remove_length "[removed]" (replace "[deleted]" "" t)).
    pose proof (remove_length "[deleted]" t).
    destruct (contains "[deleted]" t) eqn:Hd.
    + pose proof (remove_shorter "[deleted]" t eq_refl Hd). lia.
    + destruct H as [H|H]; [discriminate|].
      rewrite (replace_absent _ _ _ Hd) in *.
      pose proof (remove_shorter "[removed]" t eq_refl H). lia.
Qed.

Lemma redact_text_second_pass_shortens_witness :
  String.length
    (redact_text (Some (redact_text (Some "x [dele[removed]ted] y"))))
  < String.length (redact_text (Some "x [dele[removed]ted] y")).
Proof.
  apply (redact_text_second_pass_shortens (Some "x [dele[removed]ted] y")).
  left. reflexivity.
Defined.

End RedactTextMore.

(** ** extract_top_comments, continued *)

Section ExtractTopCommentsMore.

Local Open Scope py_scope.

Lemma strongly_sorted_app_cross {A} (R : A -> A -> Prop) (l1 l2 : list A) :
  StronglySorted R (l1 ++ l2) ->
  forall a b, In a l1 -> In b l2 -> R a b.
Proof.
  induction l1 as [|x l1 IH]; cbn [app]; intros H a b Ha Hb; [contradiction|].
  inversion H as [|? ? Hs Hall]; subst.
  destruct Ha as [<-|Ha].
  - rewrite Forall_forall in Hall. apply Hall, in_or_app. now right.
  - now apply (IH Hs).
Qed.

(** The result is the top of the ranking: together with the retained
    comments left out it is a rearrangement of all the retained comments,
    and no comment left out has a greater sort key than a returned one. *)
Theorem extract_top_comments_selects_top
  (post : Submission) (top_n : Z) (lg lg' : list log_entry)
  (nodes : list node) (res : list comment_dict) :
  s_comments post = Ok nodes ->
  extract_top_comments post top_n lg = (Ok res, lg') ->
  exists rest,
    Permutation (res ++ rest) (retained nodes) /\
    forall r x, In r res -> In x rest -> (score_key r >= score_key x)%Z.
Proof.
  intros Hc H.
  apply extract_top_comments_returns in H as (nodes' & Hc' & _ & ->).
  assert (nodes' = nodes) as -> by congruence.
  destruct (slice_to_firstn (sorted (retained nodes) score_key true) top_n)
    as [m ->].
  exists (skipn m (sorted (retained nodes) score_key true)).
  rewrite firstn_skipn. split.
  - apply Permutation_sym, sorted_perm.
  - apply (strongly_sorted_app_cross (descending score_key)).
    rewrite firstn_skipn. apply sorted_reverse_descending.
Qed.

Lemma extract_top_comments_selects_top_witness :
  exists rest,
    Permutation ([dict "c3" "best" 9] ++ rest) (retained scenario_comments)
    /\ forall r x, In r [dict "c3" "best" 9] -> In x rest ->
                   (score_key r >= score_key x)%Z.
Proof.
  apply (extract_top_comments_selects_top scenario_post 1 [] []
           scenario_comments); reflexivity.
Defined.

(** How many comments are returned: [top_n] of them or all the retained
    ones if there are fewer; for a negative [top_n] the slice drops the
    last [-top_n] of the ranking instead. *)
Theorem extract_top_comments_length
  (post : Submission) (top_n : Z) (lg lg' : list log_entry)
  (nodes : list node) (res : list comment_dict) :
  s_comments post = Ok nodes ->
  extract_top_comments post top_n lg = (Ok res, lg') ->
  length res
  = if (0 <=? top_n)%Z
    then Nat.min (Z.to_nat top_n) (length (retained nodes))
    else length (retained nodes) - Z.to_nat (- top_n).
Proof.
  intros Hc H.
  apply extract_top_comments_returns in H as (nodes' & Hc' & _ & ->).
  assert (nodes' = nodes) as -> by congruence.
  pose proof (Permutation_length
                (sorted_perm score_key (retained nodes) true)) as L.
  unfold slice_to. destruct (0 <=? top_n)%Z; rewrite length_firstn; lia.
Qed.

Lemma extract_top_comments_length_witness :
  length [dict "c3" "best" 9]
  = if (0 <=? -1)%Z
    then Nat.min (Z.to_nat (-1)) (length (retained scenario_comments))
    else length (retained scenario_comments) - Z.to_nat (- -1).
Proof.
  apply (extract_top_comments_length scenario_post (-1) [] []
           scenario_comments); reflexivity.
Defined.

(** What is logged: nothing when the expansion succeeds, and one warning
    naming the post when it raises, whether the function then returns or
    not. *)
Theorem extract_top_comments_log
  (post : Submission) (top_n : Z) (lg : list log_entry) :
  (s_replace_more post = Ok tt ->
   snd (extract_top_comments post top_n lg) = lg) /\
  (forall e id,
     s_replace_more post = Raise e -> s_id post = Present id ->
     snd (extract_top_comments post top_n lg)
     = lg ++ [(WARNING,
               ("replace_more failed for " ++ id ++ ": "
                ++ exn_msg e)%string)]).
Proof.
  split.
  - intros Hr.
    unfold extract_top_comments, bind, try_except, lift, ret. rewrite Hr.
    destruct (s_comments post) as [nodes|e]; [|reflexivity].
    destruct (for_comments nodes []); reflexivity.
  - intros e id Hr Hi.
    unfold extract_top_comments, bind, try_except, lift, ret, warning.
    rewrite Hr, Hi. cbn [getattr_direct].
    destruct (s_comments post) as [nodes|e']; [|reflexivity].
    destruct (for_comments nodes []); reflexivity.
Qed.

Lemma extract_top_comments_log_witness :
  snd (extract_top_comments scenario_post 5 []) = [] /\
  snd (extract_top_comments unreachable_post 5 [])
  = [] ++ [(WARNING, "replace_more failed for p2: received 503")].
Proof.
  split.
  - apply (proj1 (extract_top_comments_log scenario_post 5 [])).
    reflexivity.
  - apply (proj2 (extract_top_comments_log unreachable_post 5 [])
             provider_error "p2"); reflexivity.
Defined.

(** A placeholder for more comments left in the sequence is passed over:
    the result is the one the post gives without it. *)
Theorem extract_top_comments_skips_more_comments
  (post : Submission) (top_n : Z) (lg : list log_entry)
  (l1 l2 : list node) :
  extract_top_comments (with_comments post (l1 ++ MoreComments :: l2))
    top_n lg
  = extract_top_comments (with_comments post (l1 ++ l2)) top_n lg.
Proof.
  apply extract_top_comments_congr.
  induction l1 as [|x l1 IH]; cbn [app for_comments visit].
  - reflexivity.
  - destruct (visit x) as [[d|]|e]; try reflexivity.
    + apply (for_comments_skip MoreComments l1 l2 eq_refl).
    + exact IH.
Qed.

Lemma visit_provenance (c : Comment) (r : comment_dict) :
  visit (CommentNode c) = Ok (Some r) ->
  c_id c = Present (cd_id r) /\
  (exists b, c_body c = Present (Some b) /\
             cd_body r = redact_text (Some b)) /\
  cd_score r = value (c_score c) (Some 0%Z) /\
  cd_created_utc r = value (c_created_utc c) None /\
  cd_is_submitter r = value (c_is_submitter c) false.
Proof.
  unfold visit, getattr, getattr_direct.
  destruct (c_body c) as [[b|]| |]; cbn [falsy str_of_opt];
    try discriminate.
  destruct (PyStr.is_empty b); [discriminate|].
  destruct (is_sentinel b); [discriminate|].
  destruct (c_id c), (c_score c), (c_created_utc c), (c_is_submitter c);
    try discriminate; intros [= <-]; cbn; repeat split; eauto.
Qed.

(** Where each returned record comes from: a comment of the sequence whose
    id it carries, with that comment's body sanitized, its score (0 when
    the comment has none), its timestamp ([None] when absent) and its
    is-submitter flag ([False] when absent). *)
Theorem extract_top_comments_provenance
  (post : Submission) (top_n : Z) (lg lg' : list log_entry)
  (nodes : list node) (res : list comment_dict) (r : comment_dict) :
  s_comments post = Ok nodes ->
  extract_top_comments post top_n lg = (Ok res, lg') ->
  In r res ->
  exists c,
    In (CommentNode c) nodes /\
    c_id c = Present (cd_id r) /\
    (exists b, c_body c = Present (Some b) /\
               cd_body r = redact_text (Some b)) /\
    cd_score r = value (c_score c) (Some 0%Z) /\
    cd_created_utc r = value (c_created_utc c) None /\
    cd_is_submitter r = value (c_is_submitter c) false.
Proof.
  intros Hc H Hr.
  apply extract_top_comments_returns in H as (nodes' & Hc' & _ & ->).
  assert (nodes' = nodes) as -> by congruence.
  apply slice_to_in in Hr.
  apply (Permutation_in _ (Permutation_sym (sorted_perm _ _ _))) in Hr.
  apply retained_in in Hr as (c & Hin & Hv).
  exists c. split; [exact Hin|]. now apply visit_provenance.
Qed.

Lemma extract_top_comments_provenance_witness :
  exists c,
    In (CommentNode c) [comment "c1" " so [deleted] it goes " 7] /\
    c_id c = Present "c1" /\
    (exists b, c_body c = Present (Some b) /\
               "so  it goes" = redact_text (Some b)) /\
    Some 7%Z = value (c_score c) (Some 0%Z) /\
    None = value (c_created_utc c) None /\
    false = value (c_is_submitter c) false.
Proof.
  apply (extract_top_comments_provenance
           (post "p7" "t" (Ok tt)
              (Ok [comment "c1" " so [deleted] it goes " 7]))
           5 [] [] [comment "c1" " so [deleted] it goes " 7]
           [dict "c1" "so  it goes" 7] (dict "c1" "so  it goes" 7)).
  - reflexivity.
  - reflexivity.
  - now left.
Defined.

Lemma for_comments_raises (l1 l2 : list node) (c : node) (e : exn) :
  forallb sound l1 = true -> visit c = Raise e ->
  forall acc, for_comments (l1 ++ c :: l2) acc = Raise e.
Proof.
  intros Hs Hv. induction l1 as [|x l1 IH]; intros acc;
    cbn [app for_comments].
  - now rewrite Hv.
  - cbn [forallb] in Hs. apply andb_true_iff in Hs as [Hx Hs].
    destruct (visit_sound x Hx) as [[d|] ->]; auto.
Qed.

(** One comment whose body cannot be read loses the whole extraction: the
    provider's exception leaves the function, with the comments collected
    before it. *)
Theorem extract_top_comments_unreadable_body
  (post : Submission) (top_n : Z) (lg : list log_entry)
  (l1 l2 : list node) (c : Comment) (e : exn) :
  s_replace_more post = Ok tt ->
  s_comments post = Ok (l1 ++ CommentNode c :: l2) ->
  forallb sound l1 = true ->
  c_body c = Fails e ->
  extract_top_comments post top_n lg = (Raise e, lg).
Proof.
  intros Hr Hc Hs Hb.
  unfold extract_top_comments, bind, try_except, lift, ret.
  rewrite Hr, Hc.
  rewrite (for_comments_raises l1 l2 (CommentNode c) e Hs); [reflexivity|].
  unfold visit, getattr. now rewrite Hb.
Qed.

Lemma extract_top_comments_unreadable_body_witness :
  extract_top_comments
    (post "p8" "t" (Ok tt)
       (Ok ([comment "c1" "ok" 5]
            ++ CommentNode {| c_id := Present "c2";
                              c_body := Fails provider_error;
                              c_score := Missing;
                              c_created_utc := Missing;
                              c_is_submitter := Missing |}
            :: [comment "c3" "best" 9]))) 5 []
  = (Raise provider_error, []).
Proof.
  apply extract_top_comments_unreadable_body with
    (l1 := [comment "c1" "ok" 5]) (l2 := [comment "c3" "best" 9])
    (c := {| c_id := Present "c2"; c_body := Fails provider_error;
             c_score := Missing; c_created_utc := Missing;
             c_is_submitter := Missing |}); reflexivity.
Defined.

End ExtractTopCommentsMore.

(** ** scrape_subreddit, continued *)

Section ScrapeSubredditMore.

Local Open Scope py_scope.

(** One pass through the [try] body leaves the sinks as they were, or
    appends one titled record to the file and its row to the buffer. *)
Lemma try_post_steps (post : Submission) (top_comments : Z) (st : run_state) :
  let st' := snd (try_post post top_comments st) in
  path st' = path st /\
  ((written st' = written st /\ rows st' = rows st /\ count st' = count st
    /\ closed st' = closed st)
   \/
   (fst (try_post post top_comments st) = Ok tt /\
    closed st = false /\ closed st' = false /\
    exists d,
      has_title d = true /\
      written st' = written st ++ [d] /\
      rows st' = rows st ++ [row_of d] /\
      count st' = S (count st))).
Proof.
  unfold try_post, bind, lift, ret, with_logger, getattr_direct, getattr,
    written, closed, path.
  cbn.
  destruct (s_id post) as [id| |]; cbn;
    try (split; [reflexivity | left; repeat split; reflexivity]).
  destruct (s_title post) as [t| |]; cbn;
    try (split; [reflexivity | left; repeat split; reflexivity]).
  destruct (s_selftext post); cbn;
    try (split; [reflexivity | left; repeat split; reflexivity]).
  all: destruct (s_score post); cbn;
    try (split; [reflexivity | left; repeat split; reflexivity]).
  all: destruct (s_created_utc post); cbn;
    try (split; [reflexivity | left; repeat split; reflexivity]).
  all: destruct (s_num_comments post); cbn;
    try (split; [reflexivity | left; repeat split; reflexivity]).
  all: destruct (s_permalink post); cbn;
    try (split; [reflexivity | left; repeat split; reflexivity]).
  all: destruct (extract_top_comments post top_comments (logger st))
    as [[res|e] lg']; cbn;
    try (split; [reflexivity | left; repeat split; reflexivity]).
  all: destruct (redact_text t =? "") eqn:E; cbn;
    try (split; [reflexivity | left; repeat split; reflexivity]).
  all: unfold jsonl_write; cbn.
  all: destruct (f_closed (jsonl_f st)) eqn:C; cbn;
    [split; [reflexivity | left; repeat split; cbn; auto]|].
  all: split; [reflexivity|]; right; repeat split.
  all: eexists; repeat split; try reflexivity.
  all: unfold has_title; cbn; now rewrite E.
Qed.

Lemma except_post_path (post : Submission) (e : exn) (st : run_state) :
  path (snd (except_post post e st)) = path st.
Proof.
  unfold except_post, bind, lift, jsonl_close, log, getattr, attr_map, path.
  cbn. destruct (s_id post); reflexivity.
Qed.

Lemma process_post_in_sync (post : Submission) (top_comments : Z)
  (st : run_state) :
  in_sync st ->
  in_sync (snd (process_post post top_comments st)) /\
  path (snd (process_post post top_comments st)) = path st.
Proof.
  intros [Hr Hn]. unfold in_sync.
  pose proof (try_post_steps post top_comments st) as [P C].
  unfold process_post, try_except.
  destruct (try_post post top_comments st) as [[[]|e] st1];
    cbn [fst snd] in *.
  - split; [|exact P].
    destruct C as [(W & R & N & _) | (_ & _ & _ & d & _ & W & R & N)].
    + now rewrite W, R, N.
    + rewrite W, R, N, Hr, Hn, map_app, length_app. cbn. split; [auto|lia].
  - destruct C as [(W & R & N & _) | (C & _)]; [|discriminate].
    destruct (except_post_effect post e st1) as (_ & W' & R' & N').
    cbn zeta in *. rewrite except_post_path, W', R', N', W, R, N. auto.
Qed.

Lemma for_posts_in_sync (posts : list Submission) (top_comments : Z) :
  forall st, in_sync st ->
  in_sync (snd (for_posts posts top_comments st)) /\
  path (snd (for_posts posts top_comments st)) = path st.
Proof.
  induction posts as [|post rest IH]; intros st H; [now split|].
  cbn [for_posts]. unfold bind.
  destruct (process_post_in_sync post top_comments st H) as [P N].
  destruct (process_post post top_comments st) as [[[]|e] st1];
    cbn [snd] in *; [|now split].
  destruct (IH st1 P) as [P' N']. split; [exact P' | congruence].
Qed.

(** The two sinks stay in step: when a run saves the CSV table, the table
    is, row for row, the projection of the records written to the JSONL
    file, and the last log entry reports their number and the two file
    names. *)
Theorem scrape_subreddit_sinks_in_sync
  (env : Env) (subreddit_name sort time_filter : string)
  (limit top_comments : Z) (output_prefix : string) (lg : list log_entry)
  (name : string) (table : list csv_row) :
  let r := scrape_subreddit env subreddit_name sort time_filter limit
             top_comments output_prefix lg in
  r_csv r = Some (name, table) ->
  exists f earlier,
    r_jsonl r = Some f /\
    table = map row_of (f_written f) /\
    r_log r = earlier ++ [(INFO,
      ("Saved " ++ str_of_int (Z.of_nat (length (f_written f)))
       ++ " submissions to " ++ f_name f ++ " and " ++ name)%string)].
Proof.
  cbn zeta. unfold scrape_subreddit.
  destruct (init_reddit_creds env) as [reddit|e]; [|discriminate].
  destruct (select _ _ _ _) as [l w].
  destruct (open_w env _) as [[]|e0]; [|discriminate].
  match goal with
  | |- context [for_listing ?l0 ?n ?s0] =>
      assert (T : in_sync (snd (for_posts (items l0) n s0)) /\
                  path (snd (for_posts (items l0) n s0)) = path s0)
        by (apply for_posts_in_sync; split; reflexivity);
      unfold for_listing, bind, raise, ret;
      destruct (for_posts (items l0) n s0) as [[[]|e] st]
  end; [|discriminate].
  cbn [snd] in T. destruct T as [[Tr Tn] Tp].
  destruct (fault l); [discriminate|].
  cbn. destruct (to_csv env _ _); [|discriminate].
  cbn. intros [= <- <-].
  unfold written, path in *. cbn in Tp.
  eexists. exists (logger st). split; [reflexivity|]. cbn.
  split; [exact Tr|]. now rewrite Tn, Tp.
Qed.

Lemma scrape_subreddit_sinks_in_sync_witness :
  exists f earlier,
    r_jsonl (scrape_subreddit sample_env "soccercirclejerk" "top" "all" 250
               5 "dataset" []) = Some f /\
    map row_of (f_written sample_jsonl) = map row_of (f_written f) /\
    r_log (scrape_subreddit sample_env "soccercirclejerk" "top" "all" 250
             5 "dataset" [])
    = earlier ++ [(INFO,
        ("Saved " ++ str_of_int (Z.of_nat (length (f_written f)))
         ++ " submissions to " ++ f_name f ++ " and "
         ++ "dataset_soccercirclejerk_top_all_250.csv")%string)].
Proof.
  apply (scrape_subreddit_sinks_in_sync sample_env "soccercirclejerk" "top"
           "all" 250 5 "dataset" []
           "dataset_soccercirclejerk_top_all_250.csv"
           (map row_of (f_written sample_jsonl))).
  vm_compute. reflexivity.
Defined.

Lemma scrape_subreddit_without_credentials
  (env : Env) (subreddit_name sort time_filter : string)
  (limit top_comments : Z) (output_prefix : string) (lg : list log_entry) :
  missing (REDDIT_CLIENT_ID env) || missing (REDDIT_CLIENT_SECRET env)
  = true ->
  scrape_subreddit env subreddit_name sort time_filter limit top_comments
    output_prefix lg
  = {| r_outcome := Raise (Exn "RuntimeError"
                             "Missing Reddit credentials in environment.");
       r_jsonl := None; r_csv := None; r_log := lg |}.
Proof.
  unfold scrape_subreddit, init_reddit_creds, missing.
  destruct (REDDIT_CLIENT_ID env) as [id|],
           (REDDIT_CLIENT_SECRET env) as [secret|]; cbn [orb];
    try reflexivity.
  intros ->. reflexivity.
Qed.

(** Without credentials nothing is done: a missing or empty client id or
    secret makes the run raise [RuntimeError] before anything is logged and
    before a file is opened. With both, the run opens the JSONL file named
    after the prefix, the community, the lowercased sort, the time filter
    and the limit; if that open raises, the exception leaves the run and
    there is no file. *)
Theorem scrape_subreddit_credentials
  (env : Env) (subreddit_name sort time_filter : string)
  (limit top_comments : Z) (output_prefix : string) (lg : list log_entry) :
  let r := scrape_subreddit env subreddit_name sort time_filter limit
             top_comments output_prefix lg in
  let name := out_name output_prefix subreddit_name (PyStr.lower sort)
                time_filter limit ".jsonl" in
  (missing (REDDIT_CLIENT_ID env) || missing (REDDIT_CLIENT_SECRET env)
   = true ->
   r = {| r_outcome := Raise (Exn "RuntimeError"
                                "Missing Reddit credentials in environment.");
          r_jsonl := None; r_csv := None; r_log := lg |}) /\
  (missing (REDDIT_CLIENT_ID env) || missing (REDDIT_CLIENT_SECRET env)
   = false ->
   (open_w env name = Ok tt ->
    exists f, r_jsonl r = Some f /\ f_name f = name) /\
   (forall e, open_w env name = Raise e ->
      r_outcome r = Raise e /\ r_jsonl r = None /\ r_csv r = None)).
Proof.
  cbn zeta. split; [apply scrape_subreddit_without_credentials|].
  unfold scrape_subreddit, init_reddit_creds, missing.
  destruct (REDDIT_CLIENT_ID env) as [id|],
           (REDDIT_CLIENT_SECRET env) as [secret|]; cbn [orb];
    try discriminate.
  - intros ->.
    destruct (select _ _ _ _) as [l w].
    split.
    + intros ->.
      match goal with
      | |- context [for_listing ?l0 ?n ?s0] =>
          pose proof (proj2 (for_posts_in_sync (items l0) n s0
                               (conj eq_refl eq_refl))) as T;
          unfold for_listing, bind, raise, ret;
          destruct (for_posts (items l0) n s0) as [[[]|e] st]
      end; cbn [snd] in T; unfold path in T; cbn in T.
      * destruct (fault l); cbn; [eauto|].
        destruct (to_csv env _ _); cbn; eauto.
      * cbn; eauto.
    + intros e ->. cbn. auto.
  - rewrite orb_true_r. discriminate.
Qed.

Lemma scrape_subreddit_credentials_witness :
  scrape_subreddit env_without_secret "soccercirclejerk" "top" "all" 250 5
    "dataset" []
  = {| r_outcome := Raise (Exn "RuntimeError"
                             "Missing Reddit credentials in environment.");
       r_jsonl := None; r_csv := None; r_log := [] |}
  /\
  (r_outcome (scrape_subreddit env_without_directory "soccercirclejerk"
                "top" "all" 250 5 "nodir/dataset" [])
   = Raise (Exn "FileNotFoundError"
              "[Errno 2] No such file or directory: 'nodir/dataset_soccercirclejerk_top_all_250.jsonl'")
   /\ r_jsonl (scrape_subreddit env_without_directory "soccercirclejerk"
                 "top" "all" 250 5 "nodir/dataset" []) = None
   /\ r_csv (scrape_subreddit env_without_directory "soccercirclejerk"
               "top" "all" 250 5 "nodir/dataset" []) = None).
Proof.
  split.
  - apply (proj1 (scrape_subreddit_credentials env_without_secret
                    "soccercirclejerk" "top" "all" 250 5 "dataset" [])).
    reflexivity.
  - apply (proj2 (proj2 (scrape_subreddit_credentials env_without_directory
                           "soccercirclejerk" "top" "all" 250 5
                           "nodir/dataset" []) eq_refl)).
    reflexivity.
Defined.

(** [main] lets no exception out. With a credential missing it logs the
    error as fatal, then its message, and ends normally with no file
    written. *)
Theorem main_reports_missing_credentials
  (env : Env) (args : Args) (lg : list log_entry) :
  r_outcome (main env args lg) = Ok tt /\
  (missing (REDDIT_CLIENT_ID env) || missing (REDDIT_CLIENT_SECRET env)
   = true ->
   main env args lg
   = {| r_outcome := Ok tt; r_jsonl := None; r_csv := None;
        r_log := lg ++ [(ERROR,
                         "Fatal error: Missing Reddit credentials in environment.");
                        (INFO,
                         "Missing Reddit credentials in environment.")] |}).
Proof.
  split.
  - unfold main.
    destruct (r_outcome (scrape_subreddit _ _ _ _ _ _ _ _)) as [[]|e] eqn:E;
      [exact E | reflexivity].
  - intros H. unfold main.
    rewrite (scrape_subreddit_without_credentials env (a_subreddit args)
               (a_sort args) (a_time_filter args) (a_limit args)
               (a_top_comments args) (a_output_prefix args) lg H).
    reflexivity.
Qed.

Lemma main_reports_missing_credentials_witness :
  main env_without_secret default_args []
  = {| r_outcome := Ok tt; r_jsonl := None; r_csv := None;
       r_log := [] ++ [(ERROR,
                        "Fatal error: Missing Reddit credentials in environment.");
                       (INFO,
                        "Missing Reddit credentials in environment.")] |}.
Proof.
  apply (proj2 (main_reports_missing_credentials env_without_secret
                  default_args [])).
  reflexivity.
Defined.

(** A run whose file can be opened, in terms of the loop over the listing
    [select] chooses. *)
Lemma scrape_subreddit_unfold
  (env : Env) (subreddit_name sort time_filter : string)
  (limit top_comments : Z) (output_prefix : string) (lg : list log_entry)
  (reddit : string -> Subreddit) :
  init_reddit_creds env = Ok reddit ->
  open_w env (out_name output_prefix subreddit_name (PyStr.lower sort)
                time_filter limit ".jsonl") = Ok tt ->
  exists st0,
    closed st0 = false /\ written st0 = [] /\ rows st0 = [] /\
    count st0 = 0 /\
    path st0 = out_name output_prefix subreddit_name (PyStr.lower sort)
                 time_filter limit ".jsonl" /\
    let l := fst (select (reddit subreddit_name) (PyStr.lower sort)
                    time_filter limit) in
    let res := for_posts (items l) top_comments st0 in
    let r := scrape_subreddit env subreddit_name sort time_filter limit
               top_comments output_prefix lg in
    let csv := out_name output_prefix subreddit_name (PyStr.lower sort)
                 time_filter limit ".csv" in
    match fst res, fault l with
    | Ok _, None =>
        r_jsonl r = Some {| f_name := path (snd res); f_closed := true;
                            f_written := written (snd res) |} /\
        match to_csv env csv (rows (snd res)) with
        | Ok _ =>
            r_outcome r = Ok tt /\ r_csv r = Some (csv, rows (snd res))
        | Raise e => r_outcome r = Raise e /\ r_csv r = None
        end
    | Ok _, Some e =>
        r_outcome r = Raise e /\ r_jsonl r = Some (jsonl_f (snd res)) /\
        r_csv r = None
    | Raise e, _ =>
        r_outcome r = Raise e /\ r_jsonl r = Some (jsonl_f (snd res)) /\
        r_csv r = None
    end.
Proof.
  intros Hi Ho. unfold scrape_subreddit. rewrite Hi.
  destruct (select _ _ _ _) as [l w]. cbn [fst]. rewrite Ho.
  match goal with
  | |- context [for_listing l top_comments ?s0] => exists s0
  end.
  repeat (split; [reflexivity|]). cbn zeta.
  unfold for_listing, bind, raise, ret.
  destruct (for_posts (items l) top_comments _) as [[[]|e] st]; cbn [fst snd].
  - destruct (fault l); cbn; [auto|].
    destruct (to_csv env _ _); cbn; auto.
  - auto.
Qed.

(** Once the file is open, only the listing and the final save can end a
    run. When every post's id can be read, the failures of single posts
    are absorbed: if the listing iterator raises, its exception leaves the
    run and no CSV is saved; otherwise the file is closed and the table is
    handed to [to_csv], and the run ends normally with the CSV saved, or
    with the exception of the save. *)
Theorem scrape_subreddit_outcome
  (env : Env) (subreddit_name sort time_filter : string)
  (limit top_comments : Z) (output_prefix : string) (lg : list log_entry)
  (reddit : string -> Subreddit) (l : listing) :
  let r := scrape_subreddit env subreddit_name sort time_filter limit
             top_comments output_prefix lg in
  let csv := out_name output_prefix subreddit_name (PyStr.lower sort)
               time_filter limit ".csv" in
  init_reddit_creds env = Ok reddit ->
  open_w env (out_name output_prefix subreddit_name (PyStr.lower sort)
                time_filter limit ".jsonl") = Ok tt ->
  fst (select (reddit subreddit_name) (PyStr.lower sort) time_filter limit)
  = l ->
  forallb (fun p => readable (s_id p)) (items l) = true ->
  match fault l with
  | None =>
      (exists f, r_jsonl r = Some f /\ f_closed f = true) /\
      exists table,
        match to_csv env csv table with
        | Ok _ => r_outcome r = Ok tt /\ r_csv r = Some (csv, table)
        | Raise e => r_outcome r = Raise e /\ r_csv r = None
        end
  | Some e => r_outcome r = Raise e /\ r_csv r = None
  end.
Proof.
  cbn zeta. intros Hi Ho Hl Hr.
  destruct (scrape_subreddit_unfold env subreddit_name sort time_filter
              limit top_comments output_prefix lg reddit Hi Ho)
    as (st0 & _ & _ & _ & _ & _ & U).
  cbn zeta in U. rewrite Hl in U.
  rewrite (for_posts_returns (items l) top_comments Hr st0) in U.
  destruct (fault l).
  - destruct U as (O & J & C). auto.
  - destruct U as (J & C). split; [eauto|].
    exists (rows (snd (for_posts (items l) top_comments st0))).
    exact C.
Qed.

Lemma scrape_subreddit_outcome_witness :
  r_outcome (scrape_subreddit failing_env "soccercirclejerk" "hot" "all" 250
               5 "dataset" []) = Raise provider_error /\
  r_csv (scrape_subreddit failing_env "soccercirclejerk" "hot" "all" 250
           5 "dataset" []) = None.
Proof.
  apply (scrape_subreddit_outcome failing_env "soccercirclejerk" "hot" "all"
           250 5 "dataset" []
           (praw_Reddit failing_env "id" "secret"
              "soccercirclejerk_llm_scraper/0.1")
           failing_listing); reflexivity.
Defined.

Lemma extract_top_comments_sound (post : Submission) (top_n : Z)
  (lg : list log_entry) (nodes : list node) :
  has_attr (s_id post) = true ->
  s_comments post = Ok nodes ->
  forallb sound nodes = true ->
  fst (extract_top_comments post top_n lg)
  = Ok (slice_to (sorted (retained nodes) score_key true) top_n).
Proof.
  intros Hi Hc Hs.
  unfold extract_top_comments, bind, try_except, lift, ret, warning,
    getattr_direct.
  rewrite Hc.
  destruct (s_id post); try discriminate.
  destruct (s_replace_more post) as [[]|e];
    now rewrite (for_comments_sound nodes Hs []).
Qed.

(** The [try] body on a post every read of which succeeds. *)
Lemma try_post_healthy (p : Submission) (top_comments : Z) (st : run_state) :
  closed st = false ->
  healthy p = true ->
  let st' := snd (try_post p top_comments st) in
  fst (try_post p top_comments st) = Ok tt /\
  closed st' = false /\
  written st' = written st ++ filter has_title [record_of top_comments p].
Proof.
  intros Hc.
  assert (Ex : forall nodes, has_attr (s_id p) = true ->
                 s_comments p = Ok nodes -> forallb sound nodes = true ->
                 fst (extract_top_comments p top_comments (logger st))
                 = Ok (slice_to (sorted (retained nodes) score_key true)
                         top_comments))
    by (intros; now apply extract_top_comments_sound).
  revert Ex.
  unfold healthy, record_of, top_of, has_title, has_attr, readable, value.
  unfold try_post, bind, lift, ret, with_logger, getattr_direct, getattr,
    written, closed in *.
  cbn.
  destruct (s_id p) as [id| |]; cbn; try (intros; discriminate).
  destruct (s_title p) as [t| |]; cbn; try (intros; discriminate).
  destruct (s_selftext p); cbn; try (intros; discriminate).
  all: destruct (s_score p); cbn; try (intros; discriminate).
  all: destruct (s_created_utc p); cbn; try (intros; discriminate).
  all: destruct (s_num_comments p); cbn; try (intros; discriminate).
  all: destruct (s_permalink p); cbn; try (intros; discriminate).
  all: destruct (s_comments p) as [nodes|]; cbn; try (intros; discriminate).
  all: intros Ex Hs; specialize (Ex nodes eq_refl eq_refl Hs).
  all: destruct (extract_top_comments p top_comments (logger st))
         as [o lg']; cbn [fst] in Ex; subst o; cbn.
  all: destruct (redact_text t =? ""); cbn;
         [now rewrite app_nil_r|].
  all: unfold jsonl_write; cbn; rewrite Hc; cbn; auto.
Qed.

Lemma for_posts_healthy (posts : list Submission) (top_comments : Z) :
  forallb healthy posts = true ->
  forall st, closed st = false ->
  let st' := snd (for_posts posts top_comments st) in
  fst (for_posts posts top_comments st) = Ok tt /\
  closed st' = false /\
  written st'
  = written st ++ filter has_title (map (record_of top_comments) posts).
Proof.
  induction posts as [|p rest IH]; cbn [forallb for_posts]; intros H st Hc.
  - cbn. now rewrite app_nil_r.
  - apply andb_true_iff in H as [Hp Hr].
    destruct (try_post_healthy p top_comments st Hc Hp) as (O & C & W).
    unfold bind, process_post, try_except.
    destruct (try_post p top_comments st) as [[[]|e] st1];
      cbn [fst snd] in *; [|discriminate].
    destruct (IH Hr st1 C) as (O' & C' & W'). cbn zeta in *.
    split; [exact O'|]. split; [exact C'|].
    rewrite W', W. cbn [map]. rewrite <- app_assoc. f_equal.
    change (record_of top_comments p :: map (record_of top_comments) rest)
      with ([record_of top_comments p]
            ++ map (record_of top_comments) rest).
    now rewrite filter_app.
Qed.

(** A run in which the file can be opened, every read succeeds and the
    table can be saved writes exactly the records of the listed posts whose
    sanitized title is not empty, in the order listed, and saves the table
    of their rows; the handle is closed only at the end. *)
Theorem scrape_subreddit_healthy_run
  (env : Env) (subreddit_name sort time_filter : string)
  (limit top_comments : Z) (output_prefix : string) (lg : list log_entry)
  (reddit : string -> Subreddit) (l : listing) :
  let r := scrape_subreddit env subreddit_name sort time_filter limit
             top_comments output_prefix lg in
  let records :=
    filter has_title (map (record_of top_comments) (items l)) in
  let jsonl := out_name output_prefix subreddit_name (PyStr.lower sort)
                 time_filter limit ".jsonl" in
  let csv := out_name output_prefix subreddit_name (PyStr.lower sort)
               time_filter limit ".csv" in
  init_reddit_creds env = Ok reddit ->
  open_w env jsonl = Ok tt ->
  to_csv env csv (map row_of records) = Ok tt ->
  fst (select (reddit subreddit_name) (PyStr.lower sort) time_filter limit)
  = l ->
  forallb healthy (items l) = true ->
  fault l = None ->
  r_outcome r = Ok tt /\
  r_jsonl r = Some {| f_name := jsonl; f_closed := true;
                      f_written := records |} /\
  r_csv r = Some (csv, map row_of records).
Proof.
  cbn zeta. intros Hi Ho Hs Hl Hh Hf.
  destruct (scrape_subreddit_unfold env subreddit_name sort time_filter
              limit top_comments output_prefix lg reddit Hi Ho)
    as (st0 & C0 & W0 & R0 & N0 & P0 & U).
  cbn zeta in U. rewrite Hl in U.
  destruct (for_posts_healthy (items l) top_comments Hh st0 C0)
    as (O & C & W).
  destruct (for_posts_in_sync (items l) top_comments st0) as [[S _] P].
  { split; [now rewrite R0, W0 | now rewrite N0, W0]. }
  cbn zeta in *. rewrite O, Hf in U.
  rewrite W0 in W. cbn [app] in W.
  rewrite S, W, Hs in U. destruct U as (Rj & Ro & Rc).
  split; [exact Ro|]. split; [|exact Rc].
  now rewrite Rj, P, P0.
Qed.

Lemma scrape_subreddit_healthy_run_witness :
  r_outcome (scrape_subreddit healthy_env "soccercirclejerk" "new" "all"
               250 2 "dataset" []) = Ok tt /\
  r_jsonl (scrape_subreddit healthy_env "soccercirclejerk" "new" "all"
             250 2 "dataset" [])
  = Some {| f_name := out_name "dataset" "soccercirclejerk"
                        (PyStr.lower "new") "all" 250 ".jsonl";
            f_closed := true;
            f_written :=
              filter has_title
                (map (record_of 2) (items healthy_listing)) |} /\
  r_csv (scrape_subreddit healthy_env "soccercirclejerk" "new" "all"
           250 2 "dataset" [])
  = Some (out_name "dataset" "soccercirclejerk" (PyStr.lower "new") "all"
            250 ".csv",
          map row_of
            (filter has_title
               (map (record_of 2) (items healthy_listing)))).
Proof.
  apply (scrape_subreddit_healthy_run healthy_env "soccercirclejerk" "new"
           "all" 250 2 "dataset" []
           (praw_Reddit healthy_env "id" "secret"
              "soccercirclejerk_llm_scraper/0.1")
           healthy_listing); reflexivity.
Defined.

(** What [extract_top_comments] returns does not depend on the log. *)
Lemma extract_top_comments_log_free (post : Submission) (top_n : Z)
  (lg lg2 : list log_entry) :
  fst (extract_top_comments post top_n lg)
  = fst (extract_top_comments post top_n lg2).
Proof.
  unfold extract_top_comments, bind, try_except, lift, ret, warning,
    getattr_direct.
  destruct (s_replace_more post) as [[]|e0].
  - destruct (s_comments post) as [nodes|e]; [|reflexivity].
    destruct (for_comments nodes []); reflexivity.
  - destruct (s_id post); try reflexivity.
    destruct (s_comments post) as [nodes|e]; [|reflexivity].
    destruct (for_comments nodes []); reflexivity.
Qed.

(** The sinks after a post depend on the sinks before it only: neither the
    log nor the name of the file matters. *)
Lemma try_post_sinks (post : Submission) (top_comments : Z)
  (st st2 : run_state) :
  sinks st = sinks st2 ->
  fst (try_post post top_comments st) = fst (try_post post top_comments st2)
  /\ sinks (snd (try_post post top_comments st))
     = sinks (snd (try_post post top_comments st2)).
Proof.
  unfold sinks, written, closed. intros [= Hc Hw Hr Hn].
  pose proof (extract_top_comments_log_free post top_comments
                (logger st) (logger st2)) as Ex.
  unfold try_post, bind, lift, ret, with_logger, getattr_direct, getattr.
  cbn.
  destruct (s_id post) as [id| |]; cbn; try (split; congruence).
  destruct (s_title post) as [t| |]; cbn; try (split; congruence).
  destruct (s_selftext post); cbn; try (split; congruence).
  all: destruct (s_score post); cbn; try (split; congruence).
  all: destruct (s_created_utc post); cbn; try (split; congruence).
  all: destruct (s_num_comments post); cbn; try (split; congruence).
  all: destruct (s_permalink post); cbn; try (split; congruence).
  all: destruct (extract_top_comments post top_comments (logger st))
         as [o lg1];
       destruct (extract_top_comments post top_comments (logger st2))
         as [o2 lg2]; cbn [fst] in Ex; subst o2.
  all: destruct o as [res|e]; cbn; try (split; congruence).
  all: destruct (redact_text t =? ""); cbn; try (split; congruence).
  all: unfold jsonl_write; cbn; rewrite <- Hc.
  all: destruct (f_closed (jsonl_f st)) eqn:C; cbn; split; congruence.
Qed.

Lemma except_post_sinks (post : Submission) (e : exn) (st st2 : run_state) :
  sinks st = sinks st2 ->
  fst (except_post post e st) = fst (except_post post e st2) /\
  sinks (snd (except_post post e st)) = sinks (snd (except_post post e st2)).
Proof.
  unfold sinks, written, closed. intros [= Hc Hw Hr Hn].
  unfold except_post, bind, lift, jsonl_close, log, getattr, attr_map.
  cbn. destruct (s_id post); cbn; split; congruence.
Qed.

Lemma process_post_sinks (post : Submission) (top_comments : Z)
  (st st2 : run_state) :
  sinks st = sinks st2 ->
  fst (process_post post top_comments st)
  = fst (process_post post top_comments st2) /\
  sinks (snd (process_post post top_comments st))
  = sinks (snd (process_post post top_comments st2)).
Proof.
  intros H. destruct (try_post_sinks post top_comments st st2 H) as [O S].
  unfold process_post, try_except.
  destruct (try_post post top_comments st) as [[[]|e] st1],
           (try_post post top_comments st2) as [[[]|e2] st3];
    cbn [fst snd] in *; try discriminate.
  - now split.
  - injection O as <-. now apply except_post_sinks.
Qed.

Lemma for_posts_sinks (posts : list Submission) (top_comments : Z) :
  forall st st2, sinks st = sinks st2 ->
  fst (for_posts posts top_comments st)
  = fst (for_posts posts top_comments st2) /\
  sinks (snd (for_posts posts top_comments st))
  = sinks (snd (for_posts posts top_comments st2)).
Proof.
  induction posts as [|post rest IH]; intros st st2 H; [now split|].
  cbn [for_posts]. unfold bind.
  destruct (process_post_sinks post top_comments st st2 H) as [O S].
  destruct (process_post post top_comments st) as [[[]|e] st1],
           (process_post post top_comments st2) as [[[]|e2] st3];
    cbn [fst snd] in *; try discriminate.
  - now apply IH.
  - now split.
Qed.

Lemma select_unknown (sub : Subreddit) (sort time_filter : string)
  (limit : Z) :
  ~ In sort sort_choices ->
  select sub sort time_filter limit
  = (sub_top sub time_filter limit,
     [(WARNING, ("Unknown sort '" ++ sort ++ "', defaulting to top")%string)]).
Proof.
  intros H. unfold select.
  destruct (String.eqb_spec sort "top") as [->|_];
    [exfalso; apply H; cbn; auto|].
  destruct (String.eqb_spec sort "hot") as [->|_];
    [exfalso; apply H; cbn; auto|].
  destruct (String.eqb_spec sort "new") as [->|_];
    [exfalso; apply H; cbn; auto|].
  destruct (String.eqb_spec sort "rising") as [->|_];
    [exfalso; apply H; cbn; auto 6|].
  reflexivity.
Qed.

(** An unknown sort is no error: [select] warns and falls back on the top
    listing. The two runs differ in the names of their files (the unknown
    name stays in them); when both JSONL files can be opened and the save
    of a table fares the same under both CSV names, the run ends as the
    run with sort "top" does, with the same records in the file and the
    same rows in the table. *)
Theorem scrape_subreddit_unknown_sort
  (env : Env) (subreddit_name sort time_filter : string)
  (limit top_comments : Z) (output_prefix : string) (lg : list log_entry)
  (reddit : string -> Subreddit) :
  let r := scrape_subreddit env subreddit_name sort time_filter limit
             top_comments output_prefix lg in
  let r' := scrape_subreddit env subreddit_name "top" time_filter limit
              top_comments output_prefix lg in
  let name ext := out_name output_prefix subreddit_name (PyStr.lower sort)
                    time_filter limit ext in
  let name' ext := out_name output_prefix subreddit_name "top"
                     time_filter limit ext in
  init_reddit_creds env = Ok reddit ->
  ~ In (PyStr.lower sort) sort_choices ->
  open_w env (name ".jsonl") = Ok tt ->
  open_w env (name' ".jsonl") = Ok tt ->
  (forall table,
     to_csv env (name ".csv") table = to_csv env (name' ".csv") table) ->
  snd (select (reddit subreddit_name) (PyStr.lower sort) time_filter limit)
  = [(WARNING,
      ("Unknown sort '" ++ PyStr.lower sort ++ "', defaulting to top")%string)]
  /\ r_outcome r = r_outcome r'
  /\ option_map f_written (r_jsonl r) = option_map f_written (r_jsonl r')
  /\ option_map f_closed (r_jsonl r) = option_map f_closed (r_jsonl r')
  /\ option_map snd (r_csv r) = option_map snd (r_csv r').
Proof.
  cbn zeta. intros Hi Hs Ho Ho' Hcsv.
  split; [now rewrite select_unknown|].
  destruct (scrape_subreddit_unfold env subreddit_name sort time_filter
              limit top_comments output_prefix lg reddit Hi Ho)
    as (st0 & C0 & W0 & R0 & N0 & _ & U).
  destruct (scrape_subreddit_unfold env subreddit_name "top" time_filter
              limit top_comments output_prefix lg reddit Hi Ho')
    as (st1 & C1 & W1 & R1 & N1 & _ & U1).
  cbn zeta in U, U1.
  rewrite (select_unknown _ _ _ _ Hs) in U.
  change (select (reddit subreddit_name) (PyStr.lower "top") time_filter
            limit)
    with (sub_top (reddit subreddit_name) time_filter limit,
          @nil log_entry) in U1.
  change (PyStr.lower "top") with "top" in U1.
  cbn [fst] in U, U1.
  set (l := sub_top (reddit subreddit_name) time_filter limit) in *.
  assert (S0 : sinks st0 = sinks st1)
    by (unfold sinks; congruence).
  destruct (for_posts_sinks (items l) top_comments st0 st1 S0) as [O S].
  unfold sinks, written, closed in S. injection S as Sc Sw Sr Sn.
  rewrite <- O in U1. rewrite <- Sr, <- Hcsv in U1.
  destruct (fst (for_posts (items l) top_comments st0)) as [[]|e];
    [destruct (fault l)|].
  - destruct U as (-> & -> & ->), U1 as (-> & -> & ->).
    cbn; repeat split; congruence.
  - destruct U as (-> & U), U1 as (-> & U1).
    destruct (to_csv env _ _).
    + destruct U as (-> & ->), U1 as (-> & ->).
      unfold written in *; cbn; repeat split; congruence.
    + destruct U as (-> & ->), U1 as (-> & ->).
      unfold written in *; cbn; repeat split; congruence.
  - destruct U as (-> & -> & ->), U1 as (-> & -> & ->).
    cbn; repeat split; congruence.
Qed.

Lemma scrape_subreddit_unknown_sort_witness :
  snd (select (praw_Reddit sample_env "id" "secret"
                 "soccercirclejerk_llm_scraper/0.1" "soccercirclejerk")
         (PyStr.lower "Bogus") "all" 250)
  = [(WARNING, ("Unknown sort '" ++ PyStr.lower "Bogus"
                ++ "', defaulting to top")%string)]
  /\ r_outcome (scrape_subreddit sample_env "soccercirclejerk" "Bogus"
                  "all" 250 5 "dataset" [])
     = r_outcome (scrape_subreddit sample_env "soccercirclejerk" "top"
                    "all" 250 5 "dataset" [])
  /\ option_map f_written
       (r_jsonl (scrape_subreddit sample_env "soccercirclejerk" "Bogus"
                   "all" 250 5 "dataset" []))
     = option_map f_written
         (r_jsonl (scrape_subreddit sample_env "soccercirclejerk" "top"
                     "all" 250 5 "dataset" []))
  /\ option_map f_closed
       (r_jsonl (scrape_subreddit sample_env "soccercirclejerk" "Bogus"
                   "all" 250 5 "dataset" []))
     = option_map f_closed
         (r_jsonl (scrape_subreddit sample_env "soccercirclejerk" "top"
                     "all" 250 5 "dataset" []))
  /\ option_map snd
       (r_csv (scrape_subreddit sample_env "soccercirclejerk" "Bogus"
                 "all" 250 5 "dataset" []))
     = option_map snd
         (r_csv (scrape_subreddit sample_env "soccercirclejerk" "top"
                   "all" 250 5 "dataset" [])).
Proof.
  apply (scrape_subreddit_unknown_sort sample_env "soccercirclejerk" "Bogus"
           "all" 250 5 "dataset" []
           (praw_Reddit sample_env "id" "secret"
              "soccercirclejerk_llm_scraper/0.1")).
  - reflexivity.
  - vm_compute. intros [H|[H|[H|[H|[]]]]]; discriminate.
  - reflexivity.
  - reflexivity.
  - reflexivity.
Defined.

(** *** Line breaks in the table *)

Lemma contains_char_cons (a c : ascii) (s : string) :
  PyStr.contains (String a "") (String c s)
  = (if Ascii.ascii_dec a c then true else false)
    || PyStr.contains (String a "") s.
Proof.
  cbn [PyStr.contains String.prefix].
  destruct (Ascii.ascii_dec a c); [|reflexivity].
  now destruct s.
Qed.

Lemma contains_char_app (a : ascii) (s1 s2 : string) :
  PyStr.contains (String a "") (s1 ++ s2)
  = PyStr.contains (String a "") s1 || PyStr.contains (String a "") s2.
Proof.
  induction s1 as [|c s1 IH].
  - cbn [append]. now destruct s2.
  - cbn [append]. rewrite !contains_char_cons, IH. apply orb_assoc.
Qed.

Lemma remove_char_free (a b : ascii) (s : string) :
  a = b \/ PyStr.contains (String a "") s = false ->
  PyStr.contains (String a "") (PyStr.replace (String b "") "" s) = false.
Proof.
  unfold PyStr.replace. cbn [PyStr.is_empty].
  induction s as [|c s IH]; intros H.
  - reflexivity.
  - cbn [PyStr.replace_scan String.prefix String.length Nat.sub].
    assert (IH' : PyStr.contains (String a "")
                    (PyStr.replace_scan (String b "") "" s 0) = false).
    { apply IH. destruct H as [H|H]; [now left|].
      rewrite contains_char_cons in H. apply orb_false_iff in H. tauto. }
    destruct (Ascii.ascii_dec b c) as [<-|Hbc].
    + replace (String.prefix "" s) with true by now destruct s.
      exact IH'.
    + rewrite contains_char_cons, IH', orb_false_r.
      destruct (Ascii.ascii_dec a c) as [<-|]; [|reflexivity].
      destruct H as [H|H]; [congruence|].
      rewrite contains_char_cons in H.
      destruct (Ascii.ascii_dec a a); [discriminate | congruence].
Qed.

Lemma flatten_body_free (c : comment_dict) :
  PyStr.contains LF (flatten_body c) = false /\
  PyStr.contains CR (flatten_body c) = false.
Proof.
  unfold flatten_body, LF, CR. split.
  - apply remove_char_free. right. apply remove_char_free. now left.
  - apply remove_char_free. now left.
Qed.

Lemma concat_free (a : ascii) (sep : string) (l : list string) :
  PyStr.contains (String a "") sep = false ->
  Forall (fun x => PyStr.contains (String a "") x = false) l ->
  PyStr.contains (String a "") (String.concat sep l) = false.
Proof.
  intros Hs. induction 1 as [|x xs Hx Hxs IH]; [reflexivity|].
  cbn [String.concat]. destruct xs as [|y ys]; [exact Hx|].
  now rewrite !contains_char_app, Hx, Hs, IH.
Qed.

Lemma row_of_free (d : post_data) :
  PyStr.contains LF (row_top_comments (row_of d)) = false /\
  PyStr.contains CR (row_top_comments (row_of d)) = false.
Proof.
  cbn [row_of row_top_comments].
  split; apply concat_free; try reflexivity;
    apply Forall_forall; intros x Hx; apply in_map_iff in Hx as (c & <- & _);
    apply flatten_body_free.
Qed.

Lemma scrape_subreddit_table
  (env : Env) (subreddit_name sort time_filter : string)
  (limit top_comments : Z) (output_prefix : string) (lg : list log_entry)
  (name : string) (table : list csv_row) :
  r_csv (scrape_subreddit env subreddit_name sort time_filter limit
           top_comments output_prefix lg) = Some (name, table) ->
  exists records, table = map row_of records.
Proof.
  unfold scrape_subreddit.
  destruct (init_reddit_creds env) as [reddit|e]; [|discriminate].
  destruct (select _ _ _ _) as [l w].
  destruct (open_w env _) as [[]|e0]; [|discriminate].
  match goal with
  | |- context [for_listing ?l0 ?n ?s0] =>
      assert (T : in_sync (snd (for_posts (items l0) n s0)))
        by (apply for_posts_in_sync; split; reflexivity);
      unfold for_listing, bind, raise, ret;
      destruct (for_posts (items l0) n s0) as [[[]|e] st]
  end; [|discriminate].
  cbn [snd] in T. destruct T as [Tr _].
  destruct (fault l); [discriminate|].
  cbn. destruct (to_csv env _ _); [|discriminate].
  cbn. intros [= <- <-]. eauto.
Qed.

(** The comments column of the CSV table never holds a line break: in
    every row saved, the flattened comments contain neither a line feed nor
    a carriage return. *)
Theorem scrape_subreddit_table_comments_one_line
  (env : Env) (subreddit_name sort time_filter : string)
  (limit top_comments : Z) (output_prefix : string) (lg : list log_entry)
  (name : string) (table : list csv_row) :
  r_csv (scrape_subreddit env subreddit_name sort time_filter limit
           top_comments output_prefix lg) = Some (name, table) ->
  Forall (fun row =>
            PyStr.contains LF (row_top_comments row) = false /\
            PyStr.contains CR (row_top_comments row) = false) table.
Proof.
  intros H. apply scrape_subreddit_table in H as [records ->].
  apply Forall_forall. intros row Hr.
  apply in_map_iff in Hr as (d & <- & _). apply row_of_free.
Qed.

Lemma scrape_subreddit_table_comments_one_line_witness :
  Forall (fun row =>
            PyStr.contains LF (row_top_comments row) = false /\
            PyStr.contains CR (row_top_comments row) = false)
    (map row_of (map (record_of 5) (items multiline_listing))).
Proof.
  apply (scrape_subreddit_table_comments_one_line (env_of multiline_listing)
           "soccercirclejerk" "top" "all" 250 5 "dataset" []
           "dataset_soccercirclejerk_top_all_250.csv").
  vm_compute. reflexivity.
Defined.

End ScrapeSubredditMore.

(** ** subredditScraper.py, continued *)

Section MinimalScraperMore.

Import subredditScraper.

Lemma process_returns (submission : Submission) (data data' : list entry) :
  process submission data = (Ok tt, data') ->
  exists nodes t st cs,
    s_replace_more submission = Ok tt /\
    s_comments submission = Ok nodes /\
    s_title submission = Present t /\
    s_selftext submission = Present st /\
    Forall2 raw_body (firstn 5 nodes) cs /\
    data' = data ++ [{| title := t; selftext := st; comments := cs |}].
Proof.
  unfold process, bind, lift, getattr_direct. intros H.
  destruct (s_replace_more submission) as [[]|e0]; [|discriminate].
  destruct (s_comments submission) as [nodes|e1]; [|discriminate].
  destruct (bodies (slice_to nodes 5)) as [cs|e2] eqn:B; [|discriminate].
  destruct (s_title submission) as [t| |]; try discriminate.
  destruct (s_selftext submission) as [st| |]; try discriminate.
  injection H as <-.
  exists nodes, t, st, cs. repeat split.
  now apply bodies_raw in B.
Qed.

Lemma for_submissions_returns (l : list Submission) :
  forall data data',
    for_submissions l data = (Ok tt, data') ->
    exists new, data' = data ++ new /\ Forall2 recorded l new.
Proof.
  induction l as [|p rest IH]; cbn [for_submissions]; intros data data' H.
  - injection H as <-. exists []. split; [now rewrite app_nil_r | constructor].
  - unfold bind in H.
    destruct (process p data) as [[[]|e] d1] eqn:P; [|discriminate].
    apply process_returns in P
      as (nodes & t & st & cs & _ & Hc & Ht & Hs & Hb & ->).
    apply IH in H as (new & -> & Hnew).
    eexists (_ :: new). split; [now rewrite <- app_assoc|].
    constructor; [|exact Hnew].
    unfold recorded. cbn. eauto.
Qed.

Lemma for_submissions_raises (l : list Submission) (p : Submission)
  (e : exn) :
  In p l -> s_replace_more p = Raise e ->
  forall data, exists e' d, for_submissions l data = (Raise e', d).
Proof.
  intros Hin Hr. induction l as [|q rest IH]; [contradiction|].
  intros data. cbn [for_submissions]. unfold bind.
  destruct (process q data) as [[[]|e1] d1] eqn:P.
  - destruct Hin as [->|Hin].
    + apply process_returns in P as (? & ? & ? & ? & Hok & _). congruence.
    + apply (IH Hin).
  - eauto.
Qed.

(** When the minimal script ends normally, the table it saves has one entry
    per listed submission, in the order listed: the submission's title and
    text as they are (an empty title included) and the bodies of its first
    five comments. *)
Theorem minimal_scraper_saves_every_submission
  (praw_Reddit : string -> string -> string -> (string -> Subreddit))
  (data : list entry) :
  main praw_Reddit = (Ok tt, Some data) ->
  Forall2 recorded (items (minimal_listing praw_Reddit)) data.
Proof.
  unfold main. fold (minimal_listing praw_Reddit).
  destruct (for_submissions (items (minimal_listing praw_Reddit)) [])
    as [[[]|e] d] eqn:F; [|discriminate].
  destruct (fault (minimal_listing praw_Reddit)); [discriminate|].
  intros [= <-].
  apply for_submissions_returns in F as (new & -> & H). exact H.
Qed.

Lemma minimal_scraper_saves_every_submission_witness :
  Forall2 recorded
    (items (minimal_listing (praw_Reddit (env_of multiline_listing))))
    [{| title := Some "a title"; selftext := Some "";
        comments := [Some ("first" ++ LF ++ "second" ++ CR ++ LF
                           ++ "third")%string;
                     Some "one line"] |}].
Proof.
  apply (minimal_scraper_saves_every_submission
           (praw_Reddit (env_of multiline_listing))).
  reflexivity.
Defined.

(** The minimal script is all or nothing: a single submission whose
    comment expansion raises ends the script with an exception, and no
    table is saved, whatever was collected before. *)
Theorem minimal_scraper_all_or_nothing
  (praw_Reddit : string -> string -> string -> (string -> Subreddit))
  (p : Submission) (e : exn) :
  In p (items (minimal_listing praw_Reddit)) ->
  s_replace_more p = Raise e ->
  exists e', main praw_Reddit = (Raise e', None).
Proof.
  intros Hin Hr. unfold main. fold (minimal_listing praw_Reddit).
  destruct (for_submissions_raises _ p e Hin Hr []) as (e' & d & ->).
  eauto.
Qed.

Lemma minimal_scraper_all_or_nothing_witness :
  exists e', main (praw_Reddit healthy_env) = (Raise e', None).
Proof.
  apply (minimal_scraper_all_or_nothing (praw_Reddit healthy_env)
           unexpanded_post provider_error).
  - cbn. auto.
  - reflexivity.
Defined.

End MinimalScraperMore.

(** ** dataset_merger.py, continued *)

Section MergerMore.

Import dataset_merger.






End MergerMore.

(** ** scrape_subreddit after a per-post error *)

Section ScrapeSubredditAfterError.

Local Open Scope py_scope.

(** The log only grows. *)
Lemma extract_top_comments_log_grows (post : Submission) (top_n : Z)
  (lg : list log_entry) :
  exists w, snd (extract_top_comments post top_n lg) = lg ++ w.
Proof.
  unfold extract_top_comments, bind, try_except, lift, ret, warning,
    getattr_direct.
  destruct (s_replace_more post) as [[]|e0].
  - exists []. rewrite app_nil_r.
    destruct (s_comments post) as [nodes|e]; [|reflexivity].
    destruct (for_comments nodes []); reflexivity.
  - destruct (s_id post) as [id| |];
      try (exists []; now rewrite app_nil_r).
    eexists.
    destruct (s_comments post) as [nodes|e]; [|reflexivity].
    destruct (for_comments nodes []); reflexivity.
Qed.

Lemma try_post_log_grows (post : Submission) (top_comments : Z)
  (st : run_state) :
  exists w, logger (snd (try_post post top_comments st)) = logger st ++ w.
Proof.
  destruct (extract_top_comments_log_grows post top_comments (logger st))
    as [w Hw].
  unfold try_post, bind, lift, ret, with_logger, getattr_direct, getattr.
  cbn.
  destruct (s_id post) as [id| |]; cbn;
    try (exists []; now rewrite app_nil_r).
  destruct (s_title post) as [t| |]; cbn;
    try (exists []; now rewrite app_nil_r).
  destruct (s_selftext post); cbn; try (exists []; now rewrite app_nil_r).
  all: destruct (s_score post); cbn;
    try (exists []; now rewrite app_nil_r).
  all: destruct (s_created_utc post); cbn;
    try (exists []; now rewrite app_nil_r).
  all: destruct (s_num_comments post); cbn;
    try (exists []; now rewrite app_nil_r).
  all: destruct (s_permalink post); cbn;
    try (exists []; now rewrite app_nil_r).
  all: destruct (extract_top_comments post top_comments (logger st))
         as [o lg']; cbn [snd] in Hw; subst lg'; exists w.
  all: destruct o as [res|e]; cbn; try reflexivity.
  all: destruct (redact_text t =? ""); cbn; try reflexivity.
  all: unfold jsonl_write; cbn.
  all: destruct (f_closed (jsonl_f st)); reflexivity.
Qed.

Lemma except_post_log_grows (post : Submission) (e : exn) (st : run_state) :
  exists w, logger (snd (except_post post e st)) = logger st ++ w.
Proof.
  unfold except_post, bind, lift, jsonl_close, log, getattr, attr_map.
  cbn. destruct (s_id post); cbn; eauto.
  exists []. now rewrite app_nil_r.
Qed.

Lemma except_post_logs (post : Submission) (e : exn) (st : run_state)
  (id : string) :
  s_id post = Present id ->
  logger (snd (except_post post e st))
  = logger st ++ [(ERROR, ("Error processing submission id=" ++ id ++ ": "
                           ++ exn_msg e)%string)].
Proof.
  intros H.
  unfold except_post, bind, lift, jsonl_close, log, getattr, attr_map.
  cbn. rewrite H. reflexivity.
Qed.

Lemma process_post_log_grows (post : Submission) (top_comments : Z)
  (st : run_state) :
  exists w,
    logger (snd (process_post post top_comments st)) = logger st ++ w.
Proof.
  destruct (try_post_log_grows post top_comments st) as [w Hw].
  unfold process_post, try_except.
  destruct (try_post post top_comments st) as [[[]|e] st1]; cbn [snd] in *.
  - eauto.
  - destruct (except_post_log_grows post e st1) as [w' Hw'].
    exists (w ++ w'). now rewrite Hw', Hw, app_assoc.
Qed.

Lemma for_posts_log_grows (posts : list Submission) (top_comments : Z) :
  forall st, exists w,
    logger (snd (for_posts posts top_comments st)) = logger st ++ w.
Proof.
  induction posts as [|post rest IH]; intros st.
  - exists []. cbn. now rewrite app_nil_r.
  - cbn [for_posts]. unfold bind.
    destruct (process_post_log_grows post top_comments st) as [w Hw].
    destruct (process_post post top_comments st) as [[[]|e] st1];
      cbn [snd] in *; [|eauto].
    destruct (IH st1) as [w' Hw'].
    exists (w ++ w'). now rewrite Hw', Hw, app_assoc.
Qed.

(** A post every read of which succeeds and whose title is not empty gets
    as far as the write, which a closed handle refuses. *)
Lemma try_post_healthy_closed (p : Submission) (top_comments : Z)
  (st : run_state) :
  closed st = true ->
  healthy p = true ->
  has_title (record_of top_comments p) = true ->
  fst (try_post p top_comments st)
  = Raise (Exn "ValueError" "I/O operation on closed file.").
Proof.
  intros Hc.
  assert (Ex : forall nodes, has_attr (s_id p) = true ->
                 s_comments p = Ok nodes -> forallb sound nodes = true ->
                 exists res,
                   fst (extract_top_comments p top_comments (logger st))
                   = Ok res)
    by (intros nodes H1 H2 H3; eexists;
        exact (extract_top_comments_sound p top_comments (logger st) nodes
                 H1 H2 H3)).
  revert Ex.
  unfold healthy, record_of, top_of, has_title, has_attr, readable, value.
  unfold try_post, bind, lift, ret, with_logger, getattr_direct, getattr,
    written, closed in *.
  cbn.
  destruct (s_id p) as [id| |]; cbn; try (intros; discriminate).
  destruct (s_title p) as [t| |]; cbn; try (intros; discriminate).
  destruct (s_selftext p); cbn; try (intros; discriminate).
  all: destruct (s_score p); cbn; try (intros; discriminate).
  all: destruct (s_created_utc p); cbn; try (intros; discriminate).
  all: destruct (s_num_comments p); cbn; try (intros; discriminate).
  all: destruct (s_permalink p); cbn; try (intros; discriminate).
  all: destruct (s_comments p) as [nodes|]; cbn; try (intros; discriminate).
  all: intros Ex Hs Ht; destruct (Ex nodes eq_refl eq_refl Hs) as [res Hres].
  all: destruct (extract_top_comments p top_comments (logger st))
         as [o lg']; cbn [fst] in Hres; subst o; cbn.
  all: rewrite Ht; cbn.
  all: unfold jsonl_write; cbn; rewrite Hc; reflexivity.
Qed.

Lemma process_post_closed_logs (p : Submission) (top_comments : Z)
  (st : run_state) (id : string) :
  closed st = true ->
  healthy p = true ->
  has_title (record_of top_comments p) = true ->
  s_id p = Present id ->
  exists w,
    logger (snd (process_post p top_comments st)) = logger st ++ w /\
    In (ERROR, ("Error processing submission id=" ++ id
                ++ ": I/O operation on closed file.")%string) w.
Proof.
  intros Hc Hh Ht Hi.
  pose proof (try_post_healthy_closed p top_comments st Hc Hh Ht) as T.
  destruct (try_post_log_grows p top_comments st) as [w Hw].
  unfold process_post, try_except.
  destruct (try_post p top_comments st) as [o st1]; cbn [fst snd] in *.
  subst o.
  rewrite (except_post_logs p _ st1 id Hi), Hw, <- app_assoc.
  eexists. split; [reflexivity|]. apply in_or_app. right. now left.
Qed.

Lemma for_posts_closed_logs (posts : list Submission) (top_comments : Z)
  (p : Submission) (id : string) :
  forallb (fun q => readable (s_id q)) posts = true ->
  In p posts ->
  healthy p = true ->
  has_title (record_of top_comments p) = true ->
  s_id p = Present id ->
  forall st, closed st = true ->
  exists w,
    logger (snd (for_posts posts top_comments st)) = logger st ++ w /\
    In (ERROR, ("Error processing submission id=" ++ id
                ++ ": I/O operation on closed file.")%string) w.
Proof.
  intros Hr Hin Hh Ht Hi.
  induction posts as [|q rest IH]; [contradiction|].
  intros st Hc. cbn [forallb] in Hr. apply andb_true_iff in Hr as [Hq Hr].
  cbn [for_posts]. unfold bind.
  pose proof (process_post_returns q top_comments st Hq) as O.
  destruct (process_post_closed q top_comments st Hc) as (C1 & _).
  destruct (process_post_log_grows q top_comments st) as [w1 Hw1].
  destruct Hin as [->|Hin].
  - destruct (process_post_closed_logs p top_comments st id Hc Hh Ht Hi)
      as (w & Hw & Hin).
    destruct (process_post p top_comments st) as [o st1];
      cbn [fst snd] in *. subst o.
    destruct (for_posts_log_grows rest top_comments st1) as [w2 Hw2].
    exists (w ++ w2). split; [now rewrite Hw2, Hw, app_assoc|].
    apply in_or_app. now left.
  - destruct (process_post q top_comments st) as [o st1];
      cbn [fst snd] in *. subst o.
    destruct (IH Hr Hin st1 C1) as (w2 & Hw2 & Hin2).
    exists (w1 ++ w2). split; [now rewrite Hw2, Hw1, app_assoc|].
    apply in_or_app. now right.
Qed.

(** C7: once the [try] body of a post raises, the handle is closed at the
    end of that very iteration, and whatever posts follow, the records
    written to the file, the row buffer and the count stay as they were
    before that post. The loop nevertheless goes on through the posts that
    follow: when their ids can be read it returns normally, and the log
    gains, after the failing post, an error entry for every later post
    that reads well and has a title, whose write the closed handle
    refused. *)
Theorem scrape_subreddit_writes_nothing_after_error
  (post : Submission) (rest : list Submission) (top_comments : Z)
  (st st1 : run_state) (e : exn) :
  try_post post top_comments st = (Raise e, st1) ->
  closed (snd (process_post post top_comments st)) = true /\
  (let st' := snd (for_posts (post :: rest) top_comments st) in
   closed st' = true /\ written st' = written st /\ rows st' = rows st /\
   count st' = count st) /\
  (forallb (fun p => readable (s_id p)) (post :: rest) = true ->
   fst (for_posts (post :: rest) top_comments st) = Ok tt /\
   exists more,
     logger (snd (for_posts (post :: rest) top_comments st))
     = logger (snd (process_post post top_comments st)) ++ more /\
     forall p id,
       In p rest -> healthy p = true ->
       has_title (record_of top_comments p) = true ->
       s_id p = Present id ->
       In (ERROR, ("Error processing submission id=" ++ id
                   ++ ": I/O operation on closed file.")%string) more).
Proof.
  intros H.
  destruct (process_post_after_raise post top_comments st st1 e H)
    as (C & W & R & N).
  split; [exact C|]. split.
  - cbn [for_posts]. unfold bind.
    destruct (process_post post top_comments st) as [[[]|e'] st2];
      cbn [snd] in *; [|auto].
    destruct (for_posts_closed rest top_comments st2 C)
      as (C' & W' & R' & N').
    cbn zeta in *. rewrite <- W, <- R, <- N. auto.
  - intros Hr. split; [now apply for_posts_returns|].
    cbn [forallb] in Hr. apply andb_true_iff in Hr as [Hp Hr].
    pose proof (process_post_returns post top_comments st Hp) as O.
    cbn [for_posts]. unfold bind.
    destruct (process_post post top_comments st) as [o st2];
      cbn [fst snd] in *. subst o.
    destruct (for_posts_log_grows rest top_comments st2) as [more Hm].
    exists more. split; [exact Hm|].
    intros p id Hin Hh Ht Hi.
    destruct (for_posts_closed_logs rest top_comments p id Hr Hin Hh Ht Hi
                st2 C) as (w & Hw & Hin').
    rewrite Hm in Hw. apply app_inv_head in Hw. now subst w.
Qed.

Lemma scrape_subreddit_writes_nothing_after_error_witness :
  let st := snd (for_posts [scenario_post] 5 fresh_state) in
  let st' := snd (for_posts [unreachable_post; later_post] 5 st) in
  closed st = false /\ length (written st) = 1 /\
  (closed st' = true /\ written st' = written st /\ rows st' = rows st /\
   count st' = count st) /\
  fst (for_posts [unreachable_post; later_post] 5 st) = Ok tt /\
  exists more,
    logger st' = logger (snd (process_post unreachable_post 5 st)) ++ more /\
    In (ERROR, ("Error processing submission id=" ++ "p6"
                ++ ": I/O operation on closed file.")%string) more.
Proof.
  cbn zeta. split; [reflexivity|]. split; [reflexivity|].
  destruct (scrape_subreddit_writes_nothing_after_error
              unreachable_post [later_post] 5
              (snd (for_posts [scenario_post] 5 fresh_state))
              (snd (try_post unreachable_post 5
                      (snd (for_posts [scenario_post] 5 fresh_state))))
              provider_error eq_refl)
    as (_ & S & K).
  split; [exact S|].
  destruct (K eq_refl) as (O & more & Hm & Hin).
  split; [exact O|].
  exists more. split; [exact Hm|].
  apply (Hin later_post "p6"); [now left | reflexivity..].
Defined.

End ScrapeSubredditAfterError.
